(** * geminiblog: the content access layer and the summary service

    A shallow embedding of [services/supabaseService.ts] (the six data
    access functions built on the Supabase client) and of
    [services/geminiService.ts] ([generateSummary]).

    Both files are asynchronous code that talks to a hosted service and
    does a little list work in between.  A function is embedded as an
    interaction program ([Prog]): a finite tree whose nodes are the
    requests it awaits, the console lines it prints and whose leaves are
    its return value or the exception it throws.  A program is run
    against a [Service], any state machine that answers the requests, and
    the run gives the outcome, the final service state and the trace of
    what was requested and logged. *)

From Stdlib Require Import String Ascii List Bool Arith Lia Sorted.
Import ListNotations.
Open Scope string_scope.
Open Scope list_scope.

(** ** JavaScript fragments *)

Module Js.

(** A thrown value: an [Error] object with its [name] and [message]. *)
Record Exn := mkExn { exn_name : string; exn_message : string }.

(** [new Error(msg)] *)
Definition Error (msg : string) : Exn := mkExn "Error" msg.

(** What reading a property of [null] or [undefined] throws. *)
Definition TypeError (msg : string) : Exn := mkExn "TypeError" msg.

(** How the console shows a thrown value. *)
Definition show (e : Exn) : string := exn_name e ++ ": " ++ exn_message e.

(** [a || b] where [a] and [b] are objects, arrays or
    [null]/[undefined]: objects and arrays are truthy, so the right
    operand is taken exactly when [a] is missing. *)
Definition or {A : Type} (a b : option A) : option A :=
  match a with
  | Some v => Some v
  | None => b
  end.

(** [!s] for a string [s], possibly [undefined]: only the empty string
    (and [undefined]) is falsy. *)
Definition falsy (s : string) : bool :=
  match s with
  | EmptyString => true
  | String _ _ => false
  end.

(** [\s] and the characters [trim] strips, among the code units below
    256: tab, line feed, vertical tab, form feed, carriage return, space
    and the no-break space. *)
Definition is_space (c : ascii) : bool :=
  let n := nat_of_ascii c in
  existsb (Nat.eqb n) [9; 10; 11; 12; 13; 32; 160]%nat.

Fixpoint trimStart (s : string) : string :=
  match s with
  | EmptyString => EmptyString
  | String c s' => if is_space c then trimStart s' else s
  end.

(** [trimEnd]: a space is dropped when nothing but spaces follows it. *)
Fixpoint trimEnd (s : string) : string :=
  match s with
  | EmptyString => EmptyString
  | String c s' =>
      match trimEnd s' with
      | EmptyString => if is_space c then EmptyString else String c EmptyString
      | rest => String c rest
      end
  end.

(** [s.trim()] *)
Definition trim (s : string) : string := trimEnd (trimStart s).

(** [s.split(/\s+/)]: the pieces between maximal runs of white space.  A
    run at the start or at the end leaves an empty piece there, and the
    empty string splits into one empty piece.  [cur] is the piece being
    read; [in_run] says that the previous character was white space (the
    piece before the run is already emitted). *)
Fixpoint split_ws_from (cur : string) (in_run : bool) (s : string) : list string :=
  match s with
  | EmptyString => [cur]
  | String c s' =>
      if is_space c
      then if in_run then split_ws_from cur true s'
           else cur :: split_ws_from EmptyString true s'
      else split_ws_from (cur ++ String c EmptyString) false s'
  end.

Definition split_ws (s : string) : list string :=
  split_ws_from EmptyString false s.

(** [pieces.join(sep)] *)
Fixpoint join (sep : string) (pieces : list string) : string :=
  match pieces with
  | [] => EmptyString
  | [p] => p
  | p :: rest => p ++ sep ++ join sep rest
  end.

(** [[...new Set(xs)]]: the distinct elements, in the order of their
    first occurrence. *)
Definition set_add (x : string) (seen : list string) : list string :=
  if existsb (String.eqb x) seen then seen else seen ++ [x].

Definition set_to_array (xs : list string) : list string :=
  fold_left (fun seen x => set_add x seen) xs [].

End Js.

(** [Map] with string keys: the entries in the order their keys were
    first set; setting a key again replaces the value in place. *)
Module JsMap.

Definition t (V : Type) : Type := list (string * V).

Definition empty {V : Type} : t V := [].

Fixpoint set {V : Type} (k : string) (v : V) (m : t V) : t V :=
  match m with
  | [] => [(k, v)]
  | (k', v') :: m' =>
      if String.eqb k' k then (k', v) :: m' else (k', v') :: set k v m'
  end.

Fixpoint get {V : Type} (m : t V) (k : string) : option V :=
  match m with
  | [] => None
  | (k', v) :: m' => if String.eqb k' k then Some v else get m' k
  end.

(** The entries are set one after the other, in a map built so far. *)
Definition setAll {V : Type} (entries : list (string * V)) (m : t V) : t V :=
  fold_left (fun m e => set (fst e) (snd e) m) entries m.

(** [new Map(entries)] *)
Definition of_entries {V : Type} (entries : list (string * V)) : t V :=
  setAll entries empty.

Definition keys {V : Type} (m : t V) : list string := map fst m.

(** The value the entries set last for [k], [acc] when none sets it. *)
Definition lastSet {V : Type} (k : string) (entries : list (string * V))
    (acc : option V) : option V :=
  fold_left (fun acc e => if String.eqb (fst e) k then Some (snd e) else acc)
            entries acc.

(** [Array.from(m.values())] *)
Definition values {V : Type} (m : t V) : list V := map snd m.

End JsMap.

(** ** Interaction programs *)

Inductive Level := LogWarn | LogError.

Section Programs.

(** The requests a program may await, and the type of each answer. *)
Variable Req : Type.
Variable Ans : Req -> Type.

Inductive Prog (A : Type) : Type :=
| Ret (a : A)
| Throw (e : Js.Exn)
| Log (lvl : Level) (args : list string) (k : Prog A)
| Call (q : Req) (k : Ans q -> Prog A).

Arguments Ret {A} a.
Arguments Throw {A} e.
Arguments Log {A} lvl args k.
Arguments Call {A} q k.

Fixpoint bind {A B : Type} (p : Prog A) (f : A -> Prog B) : Prog B :=
  match p with
  | Ret a => f a
  | Throw e => Throw e
  | Log lvl args k => Log lvl args (bind k f)
  | Call q k => Call q (fun a => bind (k a) f)
  end.

(** [try { p } catch (error) { handler }] *)
Fixpoint try_catch {A : Type} (p : Prog A) (handler : Js.Exn -> Prog A) : Prog A :=
  match p with
  | Ret a => Ret a
  | Throw e => handler e
  | Log lvl args k => Log lvl args (try_catch k handler)
  | Call q k => Call q (fun a => try_catch (k a) handler)
  end.

(** [await] of one request. *)
Definition await (q : Req) : Prog (Ans q) := Call q (fun a => Ret a).

(** A use of [x] that reads a property of it ([x.map], [x.author_id]):
    a [TypeError] when [x] is [null]. *)
Definition deref {A : Type} (x : option A) : Prog A :=
  match x with
  | Some v => Ret v
  | None => Throw (Js.TypeError "Cannot read properties of null")
  end.

Definition console_error (args : list string) : Prog unit :=
  Log LogError args (Ret tt).

Definition console_warn (args : list string) : Prog unit :=
  Log LogWarn args (Ret tt).

(** A service: a state and the answer it gives to each request. *)
Record Service := mkService {
  state : Type;
  step : forall q : Req, state -> Ans q * state
}.

Inductive Outcome (A : Type) : Type :=
| Returned (a : A)
| Thrown (e : Js.Exn).

Arguments Returned {A} a.
Arguments Thrown {A} e.

Inductive Event :=
| Issued (q : Req)
| Logged (lvl : Level) (args : list string).

(** What the caller gets. *)
Fixpoint result (S : Service) {A : Type} (p : Prog A) (w : state S) : Outcome A :=
  match p with
  | Ret a => Returned a
  | Throw e => Thrown e
  | Log _ _ k => result S k w
  | Call q k => let (a, w') := step S q w in result S (k a) w'
  end.

(** The state the service is left in. *)
Fixpoint final (S : Service) {A : Type} (p : Prog A) (w : state S) : state S :=
  match p with
  | Ret _ => w
  | Throw _ => w
  | Log _ _ k => final S k w
  | Call q k => let (a, w') := step S q w in final S (k a) w'
  end.

(** The requests issued and the console lines printed, in order. *)
Fixpoint trace (S : Service) {A : Type} (p : Prog A) (w : state S) : list Event :=
  match p with
  | Ret _ => []
  | Throw _ => []
  | Log lvl args k => Logged lvl args :: trace S k w
  | Call q k => let (a, w') := step S q w in Issued q :: trace S (k a) w'
  end.

Fixpoint requests (t : list Event) : list Req :=
  match t with
  | [] => []
  | Issued q :: t' => q :: requests t'
  | Logged _ _ :: t' => requests t'
  end.

(** [always P p]: whatever the service answers, the outcome of [p]
    satisfies [P]. *)
Fixpoint always {A : Type} (P : Outcome A -> Prop) (p : Prog A) : Prop :=
  match p with
  | Ret a => P (Returned a)
  | Throw e => P (Thrown e)
  | Log _ _ k => always P k
  | Call q k => forall a : Ans q, always P (k a)
  end.

(** The outcome is a return value that satisfies [P]. *)
Definition returns {A : Type} (P : A -> Prop) (o : Outcome A) : Prop :=
  match o with
  | Returned a => P a
  | Thrown _ => False
  end.

End Programs.

Arguments Ret {Req Ans A} a.
Arguments Throw {Req Ans A} e.
Arguments Log {Req Ans A} lvl args k.
Arguments Call {Req Ans A} q k.
Arguments bind {Req Ans A B} p f.
Arguments try_catch {Req Ans A} p handler.
Arguments await {Req Ans} q.
Arguments deref {Req Ans A} x.
Arguments console_error {Req Ans} args.
Arguments console_warn {Req Ans} args.
Arguments mkService {Req Ans} state step.
Arguments state {Req Ans} s.
Arguments step {Req Ans} s q _.
Arguments Returned {A} a.
Arguments Thrown {A} e.
Arguments Issued {Req} q.
Arguments Logged {Req} lvl args.
Arguments result {Req Ans} S {A} p w.
Arguments final {Req Ans} S {A} p w.
Arguments trace {Req Ans} S {A} p w.
Arguments requests {Req} t.
Arguments always {Req Ans A} P p.
Arguments returns {A} P o.

Declare Scope prog_scope.
Delimit Scope prog_scope with prog.
Notation "x <- p ;; k" := (bind p (fun x => k))
  (at level 100, p at next level, right associativity) : prog_scope.
Notation "p ;;; k" := (bind p (fun _ => k))
  (at level 100, right associativity) : prog_scope.
Open Scope prog_scope.

(** ** types.ts and the rows of the three tables *)

Module Profile.
Record t := mk {
  id : string;
  name : string;
  email : option string;
  image : option string
}.
End Profile.

(** A row of [posts(id, title, content, summary, author_id, created_at)]. *)
Module PostRow.
Record t := mk {
  id : string;
  title : string;
  content : string;
  summary : string;
  author_id : string;
  created_at : string
}.
End PostRow.

(** A row of [comments(id, post_id, user_id, text, created_at)]. *)
Module CommentRow.
Record t := mk {
  id : string;
  post_id : string;
  user_id : string;
  text : string;
  created_at : string
}.
End CommentRow.

(** The object [{ ...comment, user: u }].  The service builds it with a
    cast ([as unknown as Post]), so [user] holds whatever the expression
    gave, [null] included: it is an [option]. *)
Module Comment.
Record t := mk {
  row : CommentRow.t;
  user : option Profile.t
}.
End Comment.

(** The object [{ ...post, author: a }] or
    [{ ...post, author: a, comments: cs }]; [comments] is [None] when the
    object has no such property. *)
Module Post.
Record t := mk {
  row : PostRow.t;
  author : option Profile.t;
  comments : option (list Comment.t)
}.
End Post.

(** ** The Supabase client *)

Module Supabase.

Record PostgrestError := mkError { message : string; code : string }.

(** What awaiting a query builder gives.  The client never rejects: a
    failed request is an answer too.  Its type is the client's union of
    [{ data: T, error: null }] and [{ data: null, error: PostgrestError }];
    the code reads it through the two fields. *)
Inductive Response (A : Type) : Type :=
| Success (rows : A)
| Failure (err : PostgrestError).

Arguments Success {A} rows.
Arguments Failure {A} err.

Definition data {A : Type} (r : Response A) : option A :=
  match r with
  | Success rows => Some rows
  | Failure _ => None
  end.

Definition error {A : Type} (r : Response A) : option PostgrestError :=
  match r with
  | Success _ => None
  | Failure err => Some err
  end.

Inductive Column := Title | Content.

(** The object [createPost] inserts. *)
Record NewPost := mkNewPost {
  new_title : string;
  new_content : string;
  new_summary : string;
  new_author_id : string
}.

(** The object [addComment] inserts. *)
Record NewComment := mkNewComment {
  new_post_id : string;
  new_user_id : string;
  new_text : string
}.

(** The query builder chains of supabaseService.ts, one constructor per
    chain. *)
Inductive Request :=
(* from('posts').select('*').order('created_at', { ascending: false }) *)
| PostsNewestFirst
(* from('posts').select('*').eq('id', id).single() *)
| PostById (id : string)
(* from('posts').select('*').eq('author_id', id).order('created_at', { ascending: false }) *)
| PostsByAuthor (author_id : string)
(* from('posts').select('*').textSearch(column, query, { type: 'plain' }) *)
| PostsTextSearch (column : Column) (query : string)
(* from('posts').insert([row]).select().single() *)
| InsertPost (row : NewPost)
(* from('profiles').select('id, name, image').eq('id', id).single() *)
| ProfileById (id : string)
(* from('profiles').select('*').eq('id', id).single() *)
| FullProfileById (id : string)
(* from('profiles').select('id, name, image').in('id', ids) *)
| ProfilesIn (ids : list string)
(* from('comments').select('*').eq('post_id', id).order('created_at', { ascending: true }) *)
| CommentsOldestFirst (post_id : string)
(* from('comments').insert([row]).select().single() *)
| InsertComment (row : NewComment).

Definition Answer (q : Request) : Type :=
  match q with
  | PostsNewestFirst => Response (list PostRow.t)
  | PostById _ => Response PostRow.t
  | PostsByAuthor _ => Response (list PostRow.t)
  | PostsTextSearch _ _ => Response (list PostRow.t)
  | InsertPost _ => Response PostRow.t
  | ProfileById _ => Response Profile.t
  | FullProfileById _ => Response Profile.t
  | ProfilesIn _ => Response (list Profile.t)
  | CommentsOldestFirst _ => Response (list CommentRow.t)
  | InsertComment _ => Response CommentRow.t
  end.

Definition Backend : Type := Service Request Answer.

End Supabase.

(** ** services/supabaseService.ts *)

Module SupabaseService.
Import Supabase.

(** The programs of the content access layer. *)
Definition CAL (A : Type) : Type := Prog Request Answer A.

(** The object literal [{ id: id, name: name }]. *)
Definition placeholder (id name : string) : Profile.t :=
  Profile.mk id name None None.

(** [new Map(profiles.map(p => [p.id, p]))] *)
Definition byId (profiles : list Profile.t) : JsMap.t Profile.t :=
  JsMap.of_entries (map (fun p => (Profile.id p, p)) profiles).

(** [{ ...post, author: { id: post.author_id, name: 'Unknown Author' } }] *)
Definition withUnknownAuthor (post : PostRow.t) : Post.t :=
  Post.mk post (Some (placeholder (PostRow.author_id post) "Unknown Author")) None.

(** [{ ...post, author: profilesById.get(post.author_id)
                        || { id: post.author_id, name: 'Unknown Author' } }] *)
Definition withAuthorFrom (profilesById : JsMap.t Profile.t) (post : PostRow.t) : Post.t :=
  Post.mk post
    (Js.or (JsMap.get profilesById (PostRow.author_id post))
           (Some (placeholder (PostRow.author_id post) "Unknown Author")))
    None.

(** [[...new Set(postsData.map(p => p.author_id))]] *)
Definition authorIdsOf (postsData : list PostRow.t) : list string :=
  Js.set_to_array (map PostRow.author_id postsData).

Definition getPosts : CAL (list Post.t) :=
  r <- await PostsNewestFirst ;;
  match error r with
  | Some postsError =>
      console_error ["Error fetching posts:"; message postsError] ;;;
      Ret []
  | None =>
      postsData <- deref (data r) ;;
      let authorIds := authorIdsOf postsData in
      if Nat.eqb (length authorIds) 0 then Ret [] else
      pr <- await (ProfilesIn authorIds) ;;
      match error pr with
      | Some profilesError =>
          console_error ["Error fetching author profiles:"; message profilesError] ;;;
          Ret (map withUnknownAuthor postsData)
      | None =>
          profilesData <- deref (data pr) ;;
          let profilesById := byId profilesData in
          let postsWithAuthors := map (withAuthorFrom profilesById) postsData in
          Ret postsWithAuthors
      end
  end.

(** [{ ...comment, user: usersById.get(comment.user_id)
                         || { id: comment.user_id, name: 'Unknown' } }] *)
Definition withUserFrom (usersById : JsMap.t Profile.t) (comment : CommentRow.t) : Comment.t :=
  Comment.mk comment
    (Js.or (JsMap.get usersById (CommentRow.user_id comment))
           (Some (placeholder (CommentRow.user_id comment) "Unknown"))).

(** [authorData || { id: postData.author_id, name: 'Unknown' }] *)
Definition authorOr (authorData : option Profile.t) (postData : PostRow.t) : option Profile.t :=
  Js.or authorData (Some (placeholder (PostRow.author_id postData) "Unknown")).

(** [[...new Set(commentsData.map(c => c.user_id))]] *)
Definition userIdsOf (commentsData : list CommentRow.t) : list string :=
  Js.set_to_array (map CommentRow.user_id commentsData).

Definition getPostById (id : string) : CAL (option Post.t) :=
  r <- await (PostById id) ;;
  match error r with
  | Some postError =>
      console_error [("Error fetching post by ID (" ++ id ++ "):")%string;
                     message postError] ;;;
      Ret None
  | None =>
  match data r with
  | None => Ret None
  | Some postData =>
      ar <- await (ProfileById (PostRow.author_id postData)) ;;
      let authorData := data ar in
      match error ar with
      | Some authorError =>
          console_warn ["Could not fetch author for post:"; message authorError]
      | None => Ret tt
      end ;;;
      cr <- await (CommentsOldestFirst id) ;;
      match error cr with
      | Some commentsError =>
          console_error ["Error fetching comments:"; message commentsError] ;;;
          Ret (Some (Post.mk postData (authorOr authorData postData) (Some [])))
      | None =>
          commentsData <- deref (data cr) ;;
          let userIds := userIdsOf commentsData in
          usersById <-
            (if Nat.ltb 0 (length userIds) then
               ur <- await (ProfilesIn userIds) ;;
               match error ur with
               | Some usersError =>
                   console_warn ["Could not fetch users for comments:"; message usersError] ;;;
                   Ret JsMap.empty
               | None =>
                   usersData <- deref (data ur) ;;
                   Ret (byId usersData)
               end
             else Ret JsMap.empty) ;;
          let commentsWithUsers := map (withUserFrom usersById) commentsData in
          Ret (Some (Post.mk postData (authorOr authorData postData)
                             (Some commentsWithUsers)))
      end
  end
  end.

Definition getPostsByAuthor (authorId : string) : CAL (list Post.t) :=
  ar <- await (ProfileById authorId) ;;
  let authorData := data ar in
  match error ar with
  | Some authorError =>
      console_error ["Error fetching author profile:"; message authorError] ;;;
      Ret []
  | None =>
      pr <- await (PostsByAuthor authorId) ;;
      match error pr with
      | Some postsError =>
          console_error ["Error fetching posts by author:"; message postsError] ;;;
          Ret []
      | None =>
          postsData <- deref (data pr) ;;
          Ret (map (fun post => Post.mk post authorData None) postsData)
      end
  end.

Definition createPost (postData : NewPost) : CAL Post.t :=
  r <- await (InsertPost postData) ;;
  match error r with
  | Some err =>
      console_error ["Error creating post:"; message err] ;;;
      Throw (Js.Error "Could not create post.")
  | None =>
      created <- deref (data r) ;;
      pr <- await (FullProfileById (PostRow.author_id created)) ;;
      let profile := data pr in
      match error pr with
      | Some profileError =>
          console_error ["Error fetching profile for new post:"; message profileError] ;;;
          Ret (Post.mk created
                 (Some (placeholder (PostRow.author_id created) "Unknown")) None)
      | None => Ret (Post.mk created profile None)
      end
  end.

(** [query.trim().split(/\s+/).join(' | ')] *)
Definition formatQuery (query : string) : string :=
  Js.join " | " (Js.split_ws (Js.trim query)).

(** [post => [post.id, post]] *)
Definition entryOf (post : PostRow.t) : string * PostRow.t :=
  (PostRow.id post, post).

(** [Array.from(new Map([...titleResults, ...contentResults]
                          .map(post => [post.id, post])).values())] *)
Definition mergeById (titleResults contentResults : list PostRow.t) : list PostRow.t :=
  JsMap.values
    (JsMap.of_entries (map entryOf (titleResults ++ contentResults))).

(** The two searches of [Promise.all] are issued in the order of the
    array, title first, and both are awaited before anything else runs. *)
Definition searchPosts (query : string) : CAL (list Post.t) :=
  if Js.falsy query then Ret [] else
  let formattedQuery := formatQuery query in
  titleSearch <- await (PostsTextSearch Title formattedQuery) ;;
  contentSearch <- await (PostsTextSearch Content formattedQuery) ;;
  match error titleSearch with
  | Some err => console_error ["Error searching post titles:"; message err]
  | None => Ret tt
  end ;;;
  match error contentSearch with
  | Some err => console_error ["Error searching post content:"; message err]
  | None => Ret tt
  end ;;;
  titleResults <- deref (Js.or (data titleSearch) (Some [])) ;;
  contentResults <- deref (Js.or (data contentSearch) (Some [])) ;;
  let postsData := mergeById titleResults contentResults in
  if Nat.eqb (length postsData) 0 then Ret [] else
  let authorIds := authorIdsOf postsData in
  pr <- await (ProfilesIn authorIds) ;;
  match error pr with
  | Some profilesError =>
      console_warn ["Error fetching author profiles for search results:";
                    message profilesError] ;;;
      Ret (map withUnknownAuthor postsData)
  | None =>
      profilesData <- deref (data pr) ;;
      let profilesById := byId profilesData in
      Ret (map (withAuthorFrom profilesById) postsData)
  end.

(** The argument of [addComment]. *)
Record CommentData := mkCommentData {
  postId : string;
  user_id : string;
  text : string
}.

(** The inserted row is returned as the client gave it ([data]). *)
Definition addComment (commentData : CommentData) : CAL (option CommentRow.t) :=
  r <- await (InsertComment
                (mkNewComment (postId commentData) (user_id commentData)
                              (text commentData))) ;;
  match error r with
  | Some err =>
      console_error ["Error adding comment:"; message err] ;;;
      Throw (Js.Error "Could not add comment.")
  | None => Ret (data r)
  end.

End SupabaseService.

(** ** services/geminiService.ts *)

Module GeminiService.

(** How a call into the SDK ends: with a value, or with a thrown value
    (a rejected promise, once awaited). *)
Inductive Completion (A : Type) : Type :=
| Normal (v : A)
| Abrupt (e : Js.Exn).

Arguments Normal {A} v.
Arguments Abrupt {A} e.

Inductive Request :=
(* new GoogleGenAI({ apiKey: process.env.API_KEY }): reads the
   environment and builds the client; nothing is sent. *)
| NewGoogleGenAI
(* (await ai.models.generateContent({ model, contents })).text *)
| GenerateContent (model contents : string).

(** [text] is a string or [undefined]. *)
Definition Answer (q : Request) : Type :=
  match q with
  | NewGoogleGenAI => Completion unit
  | GenerateContent _ _ => Completion (option string)
  end.

Definition Gemini : Type := Service Request Answer.

Definition completed {A : Type} (c : Completion A) : Prog Request Answer A :=
  match c with
  | Normal v => Ret v
  | Abrupt e => Throw e
  end.

Definition newline : string := String (ascii_of_nat 10) EmptyString.

(** The template literal of the prompt. *)
Definition promptFor (content : string) : string :=
  ("Summarize the following blog post content in a concise paragraph (around 50-70 words). Capture the main idea and key takeaways. Here is the content:"
   ++ newline ++ newline ++ "---" ++ newline ++ newline ++ content)%string.

Definition tooShort : string :=
  "Content is too short to generate a meaningful summary.".

Definition userError : string :=
  "There was an error generating the AI summary. Please try again later.".

Definition generateSummary (content : string) : Prog Request Answer string :=
  try_catch
    (ai <- (c <- await NewGoogleGenAI ;; completed c) ;;
     if Js.falsy content
     then Throw (Js.Error "Content is required to generate a summary.")
     else
     if Nat.ltb (String.length content) 50 then Ret tooShort else
     let prompt := promptFor content in
     summary <- (c <- await (GenerateContent "gemini-2.5-flash" prompt) ;; completed c) ;;
     match summary with
     | None => Throw (Js.Error "The AI did not return a summary.")
     | Some text =>
         if Js.falsy text
         then Throw (Js.Error "The AI did not return a summary.")
         else Ret text
     end)
    (fun error =>
       console_error ["Error generating summary with Gemini API:"; Js.show error] ;;;
       Ret userError).

End GeminiService.

(** ** Sample services, for concrete runs *)

Module Samples.
Import Supabase.

(** A backend that gives the same answers whatever is asked and counts
    the requests it has answered. *)
Record Canned := mkCanned {
  postList : Response (list PostRow.t);
  onePost : Response PostRow.t;
  oneProfile : Response Profile.t;
  profileList : Response (list Profile.t);
  commentList : Response (list CommentRow.t);
  titleHits : Response (list PostRow.t);
  contentHits : Response (list PostRow.t);
  insertedPost : Response PostRow.t;
  insertedComment : Response CommentRow.t
}.

Definition canned (c : Canned) : Backend :=
  mkService nat
    (fun q n =>
       (match q return Answer q with
        | PostsNewestFirst => postList c
        | PostById _ => onePost c
        | PostsByAuthor _ => postList c
        | PostsTextSearch Title _ => titleHits c
        | PostsTextSearch Content _ => contentHits c
        | InsertPost _ => insertedPost c
        | ProfileById _ => oneProfile c
        | FullProfileById _ => oneProfile c
        | ProfilesIn _ => profileList c
        | CommentsOldestFirst _ => commentList c
        | InsertComment _ => insertedComment c
        end, S n)).

Definition down : PostgrestError := mkError "TypeError: Failed to fetch" "".

Definition noRows : PostgrestError :=
  mkError "JSON object requested, multiple (or no) rows returned" "PGRST116".

Definition ada : Profile.t := Profile.mk "u1" "Ada" None None.
Definition bob : Profile.t := Profile.mk "u2" "Bob" None (Some "bob.png").

Definition post1 : PostRow.t :=
  PostRow.mk "p1" "Hello" "First post" "hi" "u1" "2024-01-01T10:00:00+00:00".
Definition post2 : PostRow.t :=
  PostRow.mk "p2" "Again" "Second post" "more" "u2" "2024-01-02T10:00:00+00:00".
Definition post3 : PostRow.t :=
  PostRow.mk "p3" "Orphan" "Third post" "none" "u9" "2024-01-03T10:00:00+00:00".
(** [post1] as a later read sees it after an edit of its title. *)
Definition post1' : PostRow.t :=
  PostRow.mk "p1" "Hello again" "First post" "hi" "u1" "2024-01-01T10:00:00+00:00".

Definition comment1 : CommentRow.t :=
  CommentRow.mk "c1" "p1" "u2" "Nice" "2024-01-01T11:00:00+00:00".
Definition comment2 : CommentRow.t :=
  CommentRow.mk "c2" "p1" "u9" "Indeed" "2024-01-01T12:00:00+00:00".

(** Everything is there and every request succeeds. *)
Definition healthy : Canned :=
  mkCanned (Success [post3; post2; post1]) (Success post1) (Success ada)
           (Success [ada; bob]) (Success [comment1; comment2])
           (Success [post1; post2]) (Success [post1'; post3])
           (Success post1) (Success comment1).

(** The posts table answers; every profile lookup fails. *)
Definition noProfiles : Canned :=
  mkCanned (Success [post3; post2; post1]) (Success post1) (Failure down)
           (Failure down) (Success [comment1; comment2])
           (Success [post1; post2]) (Success [post1'; post3])
           (Success post1) (Success comment1).

(** Everything answers, but there is no post of the id asked for. *)
Definition missingPost : Canned :=
  mkCanned (Success [post3; post2; post1]) (Failure noRows) (Success ada)
           (Success [ada; bob]) (Success [comment1; comment2])
           (Success [post1; post2]) (Success [post1'; post3])
           (Success post1) (Success comment1).

(** Nothing answers. *)
Definition offline : Canned :=
  mkCanned (Failure down) (Failure down) (Failure down) (Failure down)
           (Failure down) (Failure down) (Failure down) (Failure down)
           (Failure down).

(** A summary service given by its two answers; it counts the requests. *)
Definition gemini (construct : GeminiService.Completion unit)
    (text : GeminiService.Completion (option string)) : GeminiService.Gemini :=
  mkService nat
    (fun q n =>
       (match q return GeminiService.Answer q with
        | GeminiService.NewGoogleGenAI => construct
        | GeminiService.GenerateContent _ _ => text
        end, S n)).

(** 70 characters, enough to be sent to the model. *)
Definition longContent : string :=
  "A proof assistant checks every step; this post shows how to start out.".

(** In the browser [process] is not defined. *)
Definition noProcess : Js.Exn := Js.mkExn "ReferenceError" "process is not defined".

End Samples.

(** ** The vocabulary of the properties *)

Module Hydration.
Import Supabase SupabaseService.

(** The rows an answer carries: none when the request failed. *)
Definition rowsOf {A : Type} (r : Response (list A)) : list A :=
  match r with
  | Success rows => rows
  | Failure _ => []
  end.

Definition hasAuthor (p : Post.t) : Prop := Post.author p <> None.

Definition hasUser (c : Comment.t) : Prop := Comment.user c <> None.

(** No hole is left: the author is there, and so is the user of every
    comment the post carries. *)
Definition hydrated (p : Post.t) : Prop :=
  hasAuthor p /\
  forall cs, Post.comments p = Some cs -> Forall hasUser cs.

(** The author is the placeholder [{ id: author_id, name }]. *)
Definition unknownAuthor (name : string) (p : Post.t) : Prop :=
  Post.author p =
  Some (Profile.mk (PostRow.author_id (Post.row p)) name None None).

(** The user is the placeholder [{ id: user_id, name }]. *)
Definition unknownUser (name : string) (c : Comment.t) : Prop :=
  Comment.user c =
  Some (Profile.mk (CommentRow.user_id (Comment.row c)) name None None).

(** The batch lookup [r] has a profile for [id]: it succeeded and one of
    its rows has that id. *)
Definition resolves (r : Response (list Profile.t)) (id : string) : Prop :=
  exists a, In a (rowsOf r) /\ Profile.id a = id.

End Hydration.

(** ** More of the program algebra *)

Section MorePrograms.

Context {Req : Type} {Ans : Req -> Type}.

(** [try { p } finally { finalizer }]: the finalizer runs whether [p]
    returned or threw, and the outcome of [p] stands unless the finalizer
    throws. *)
Fixpoint try_finally {A : Type} (p : Prog Req Ans A)
    (finalizer : Prog Req Ans unit) : Prog Req Ans A :=
  match p with
  | Ret a => bind finalizer (fun _ => Ret a)
  | Throw e => bind finalizer (fun _ => Throw e)
  | Log lvl args k => Log lvl args (try_finally k finalizer)
  | Call q k => Call q (fun a => try_finally (k a) finalizer)
  end.

(** No run of [p] issues more than [n] requests. *)
Fixpoint callsAtMost (n : nat) {A : Type} (p : Prog Req Ans A) : Prop :=
  match p with
  | Ret _ => True
  | Throw _ => True
  | Log _ _ k => callsAtMost n k
  | Call q k =>
      match n with
      | O => False
      | S n' => forall a : Ans q, callsAtMost n' (k a)
      end
  end.

(** The console lines of a trace, oldest first. *)
Fixpoint consoleLines (t : list (Event Req)) : list (Level * list string) :=
  match t with
  | [] => []
  | Issued _ :: t' => consoleLines t'
  | Logged lvl args :: t' => (lvl, args) :: consoleLines t'
  end.

End MorePrograms.

(** ** Strings: what the properties say about them *)

Module Text.

(** Nothing but white space (the empty string included). *)
Fixpoint blank (s : string) : bool :=
  match s with
  | EmptyString => true
  | String c s' => Js.is_space c && blank s'
  end.

(** No white space at all. *)
Fixpoint solid (s : string) : bool :=
  match s with
  | EmptyString => true
  | String c s' => negb (Js.is_space c) && solid s'
  end.

(** The string with its white space taken out. *)
Fixpoint squeeze (s : string) : string :=
  match s with
  | EmptyString => EmptyString
  | String c s' => if Js.is_space c then squeeze s' else String c (squeeze s')
  end.

(** The last character, if there is one, is not white space. *)
Fixpoint endsSolid (s : string) : bool :=
  match s with
  | EmptyString => true
  | String c EmptyString => negb (Js.is_space c)
  | String _ s' => endsSolid s'
  end.

(** A text laid out as gaps and words: each pair is a gap and the word
    after it, and [tail] is what follows the last word.  When the gaps
    and the tail are white space, the words are non-empty and without
    white space, and every gap but the first is non-empty, the words are
    the maximal runs of the text without white space. *)
Fixpoint spread (gapsAndWords : list (string * string)) (tail : string) : string :=
  match gapsAndWords with
  | [] => tail
  | (gap, word) :: rest => (gap ++ word ++ spread rest tail)%string
  end.

(** The first character, if there is one, is not white space. *)
Definition startsSolid (s : string) : bool :=
  match s with
  | EmptyString => true
  | String c _ => negb (Js.is_space c)
  end.

End Text.

(** ** What a run of the content access layer shows *)

Module Observe.
Import Supabase SupabaseService.

(** The error of an answer, whatever the request was. *)
Definition errorOf (q : Request) : Answer q -> option PostgrestError :=
  match q return Answer q -> option PostgrestError with
  | PostsNewestFirst => error
  | PostById _ => error
  | PostsByAuthor _ => error
  | PostsTextSearch _ _ => error
  | InsertPost _ => error
  | ProfileById _ => error
  | FullProfileById _ => error
  | ProfilesIn _ => error
  | CommentsOldestFirst _ => error
  | InsertComment _ => error
  end.

(** The messages of the requests that failed in the run of [p], in the
    order the requests were issued. *)
Fixpoint failureCauses (B : Backend) {A : Type} (p : CAL A) (w : state B)
    : list string :=
  match p with
  | Ret _ => []
  | Throw _ => []
  | Log _ _ k => failureCauses B k w
  | Call q k =>
      let (a, w') := step B q w in
      match errorOf q a with
      | Some e => message e :: failureCauses B (k a) w'
      | None => failureCauses B (k a) w'
      end
  end.

(** What each console line of a trace ends with. *)
Definition loggedCauses (t : list (Event Request)) : list string :=
  map (fun line => last (snd line) "") (consoleLines t).

(** [loggedAs fails logs p]: in every run of [p], the lines printed,
    after [logs], end with the messages of the failed requests, after
    [fails]. *)
Fixpoint loggedAs (fails logs : list string) {A : Type} (p : CAL A) : Prop :=
  match p with
  | Ret _ => fails = logs
  | Throw _ => fails = logs
  | Log _ args k => loggedAs fails (logs ++ [last args ""]) k
  | Call q k =>
      forall a : Answer q,
        loggedAs (match errorOf q a with
                  | Some e => fails ++ [message e]
                  | None => fails
                  end) logs (k a)
  end.

End Observe.

(** ** App.tsx and components.tsx: the event handlers *)

Module App.
Import Supabase SupabaseService.

(** [session.user] *)
Record SessionUser := mkSessionUser {
  session_user_id : string;
  session_user_email : option string
}.

(** A [Session], as far as the code reads it. *)
Record Session := mkSession { session_user : option SessionUser }.

(** What a handler does to the page: the state setters it calls and the
    browser functions it uses.  Each component has its own [loading]. *)
Inductive UiEvent :=
(* e.preventDefault() *)
| PreventDefault
(* HomePage *)
| HomeSetPosts (posts : list Post.t)
| HomeSetSearchResults (results : option (list Post.t))
| HomeSetLoading (loading : bool)
(* PostPage *)
| PostSetPost (post : option Post.t)
| PostSetLoading (loading : bool)
| PostSetCommentText (text : string)
| PostSetIsSubmitting (submitting : bool)
(* EditorPage and Editor *)
| EditorSetIsPublishing (publishing : bool)
| EditorSetSummary (summary : string)
| EditorSetIsSummarizing (summarizing : bool)
| Alert (msg : string)
| Navigate (path : string)
(* DashboardPage *)
| DashboardSetPosts (posts : list Post.t)
| DashboardSetLoading (loading : bool)
(* AuthProvider *)
| AuthSetSession (session : option Session)
| AuthSetUser (user : option Profile.t).

Inductive Request :=
| Db (q : Supabase.Request)
| Ai (q : GeminiService.Request)
| Ui (e : UiEvent).

Definition Answer (r : Request) : Type :=
  match r with
  | Db q => Supabase.Answer q
  | Ai q => GeminiService.Answer q
  | Ui _ => unit
  end.

Definition Handler (A : Type) : Type := Prog Request Answer A.

(** The browser with the two services behind it. *)
Definition Browser : Type := Service Request Answer.

(** A call into supabaseService.ts from a component. *)
Fixpoint liftDb {A : Type} (p : CAL A) : Handler A :=
  match p with
  | Ret a => Ret a
  | Throw e => Throw e
  | Log lvl args k => Log lvl args (liftDb k)
  | Call q k => Call (Db q) (fun a => liftDb (k a))
  end.

(** A call into geminiService.ts from a component. *)
Fixpoint liftAi {A : Type} (p : Prog GeminiService.Request GeminiService.Answer A)
    : Handler A :=
  match p with
  | Ret a => Ret a
  | Throw e => Throw e
  | Log lvl args k => Log lvl args (liftAi k)
  | Call q k => Call (Ai q) (fun a => liftAi (k a))
  end.

Definition ui (e : UiEvent) : Handler unit := Call (Ui e) (fun _ => Ret tt).

(** The backend a browser talks to. *)
Definition dbOf (S : Browser) : Backend :=
  mkService (state S) (fun q w => step S (Db q) w).

(** The summary service a browser talks to. *)
Definition aiOf (S : Browser) : GeminiService.Gemini :=
  mkService (state S) (fun q w => step S (Ai q) w).

Fixpoint uiEvents (t : list (Event Request)) : list UiEvent :=
  match t with
  | [] => []
  | Issued (Ui e) :: t' => e :: uiEvents t'
  | _ :: t' => uiEvents t'
  end.

Fixpoint dbRequests (t : list (Event Request)) : list Supabase.Request :=
  match t with
  | [] => []
  | Issued (Db q) :: t' => q :: dbRequests t'
  | _ :: t' => dbRequests t'
  end.

Fixpoint aiRequests (t : list (Event Request)) : list GeminiService.Request :=
  match t with
  | [] => []
  | Issued (Ai q) :: t' => q :: aiRequests t'
  | _ :: t' => aiRequests t'
  end.

(** A string that may be [undefined], when it is truthy. *)
Definition truthy (s : option string) : option string :=
  match s with
  | Some v => if Js.falsy v then None else Some v
  | None => None
  end.

(** HomePage: the effect that loads the posts. *)
Definition fetchPosts : Handler unit :=
  ui (HomeSetLoading true) ;;;
  data <- liftDb getPosts ;;
  ui (HomeSetPosts data) ;;;
  ui (HomeSetLoading false).

(** HomePage: the search form. *)
Definition handleSearch (searchTerm : string) : Handler unit :=
  ui PreventDefault ;;;
  if Js.falsy (Js.trim searchTerm) then
    ui (HomeSetSearchResults None)
  else
    ui (HomeSetLoading true) ;;;
    results <- liftDb (searchPosts searchTerm) ;;
    ui (HomeSetSearchResults (Some results)) ;;;
    ui (HomeSetLoading false).

(** [searchResults !== null ? searchResults : posts] *)
Definition displayedPosts (searchResults : option (list Post.t))
    (posts : list Post.t) : list Post.t :=
  match searchResults with
  | Some results => results
  | None => posts
  end.

(** PostPage: [id] is the route parameter. *)
Definition fetchPost (id : option string) : Handler unit :=
  match truthy id with
  | None => Ret tt
  | Some id =>
      ui (PostSetLoading true) ;;;
      data <- liftDb (getPostById id) ;;
      ui (PostSetPost data) ;;;
      ui (PostSetLoading false)
  end.

(** PostPage: the comment form.  The guard is
    [!commentText.trim() || !user || !id]; the last line calls [fetchPost]
    without awaiting it, and nothing of the handler runs after it. *)
Definition handleCommentSubmit (id : option string) (user : option Profile.t)
    (commentText : string) : Handler unit :=
  ui PreventDefault ;;;
  if Js.falsy (Js.trim commentText) then Ret tt else
  match user with
  | None => Ret tt
  | Some user =>
  match truthy id with
  | None => Ret tt
  | Some postId =>
      ui (PostSetIsSubmitting true) ;;;
      liftDb (addComment (mkCommentData postId (Profile.id user) commentText)) ;;;
      ui (PostSetCommentText "") ;;;
      ui (PostSetIsSubmitting false) ;;;
      fetchPost id
  end
  end.

(** EditorPage: the publish button.  The guard is
    [!title.trim() || !content.trim() || !user]. *)
Definition handlePublish (user : option Profile.t)
    (title content summary : string) : Handler unit :=
  if Js.falsy (Js.trim title) then ui (Alert "Title and content are required.") else
  if Js.falsy (Js.trim content) then ui (Alert "Title and content are required.") else
  match user with
  | None => ui (Alert "Title and content are required.")
  | Some user =>
      ui (EditorSetIsPublishing true) ;;;
      newPost <- liftDb (createPost (mkNewPost title content summary (Profile.id user))) ;;
      ui (EditorSetIsPublishing false) ;;;
      ui (Navigate ("/post/" ++ PostRow.id (Post.row newPost))%string)
  end.

(** Editor: the summarize button. *)
Definition handleSummarize (content : string) : Handler unit :=
  if Js.falsy content then Ret tt else
  ui (EditorSetIsSummarizing true) ;;;
  try_finally
    (try_catch
       (generated <- liftAi (GeminiService.generateSummary content) ;;
        ui (EditorSetSummary generated))
       (fun error =>
          console_error [Js.show error] ;;;
          ui (EditorSetSummary "Failed to generate summary.")))
    (ui (EditorSetIsSummarizing false)).

(** DashboardPage: the effect that loads the posts of the user, and
    leaves the page when nobody is signed in. *)
Definition dashboardEffect (user : option Profile.t) : Handler unit :=
  match user with
  | Some user =>
      ui (DashboardSetLoading true) ;;;
      data <- liftDb (getPostsByAuthor (Profile.id user)) ;;
      ui (DashboardSetPosts data) ;;;
      ui (DashboardSetLoading false)
  | None => ui (Navigate "/")
  end.

(** [session.user.email || 'New User'] *)
Definition fallbackName (email : option string) : string :=
  match truthy email with
  | Some v => v
  | None => "New User"
  end.

(** AuthProvider: [setAuthData].  Only [data] of the answer is read. *)
Definition setAuthData (session : option Session) : Handler unit :=
  ui (AuthSetSession session) ;;;
  match match session with
        | Some s => session_user s
        | None => None
        end with
  | Some sessionUser =>
      r <- liftDb (await (FullProfileById (session_user_id sessionUser))) ;;
      match data r with
      | Some profile => ui (AuthSetUser (Some profile))
      | None =>
          console_warn [("No profile found for user " ++ session_user_id sessionUser
                         ++ ". Using fallback data.")%string] ;;;
          ui (AuthSetUser
                (Some (Profile.mk (session_user_id sessionUser)
                         (fallbackName (session_user_email sessionUser))
                         None None)))
      end
  | None => ui (AuthSetUser None)
  end.

End App.

(** ** A backend that does not sort *)

Module OrderSamples.
Import Supabase Samples.


End OrderSamples.

(** ** Sample browsers *)

Module BrowserSamples.
Import Supabase App Samples.

(** A browser over a canned backend and a summary service given by its
    two answers; it counts everything asked of it. *)
Definition browser (c : Canned) (construct : GeminiService.Completion unit)
    (text : GeminiService.Completion (option string)) : Browser :=
  mkService nat
    (fun q n =>
       match q return App.Answer q * nat with
       | Db q => step (canned c) q n
       | Ai q => step (gemini construct text) q n
       | Ui _ => (tt, S n)
       end).

(** Everything works. *)
Definition online : Browser :=
  browser healthy (GeminiService.Normal tt)
          (GeminiService.Normal (Some "A short summary.")).

(** The backend is down and the client of the model cannot be built. *)
Definition cutOff : Browser :=
  browser offline (GeminiService.Abrupt noProcess) (GeminiService.Normal None).

End BrowserSamples.

(** ** Case analysis on the answers *)

(** One step of a proof by cases on what the backend answered: take the
    next answer, split it into success and failure, and compute. *)
Ltac answer_cases :=
  repeat (simpl;
          match goal with
          | |- forall _ : Supabase.Response _, _ => intros [? | ?]
          | |- forall _ : Supabase.Answer _, _ => intros [? | ?]
          | |- context [if ?b then _ else _] => destruct b
          end);
  simpl.

(** One step of a proof that a program issues few requests. *)
Ltac few_calls :=
  repeat (simpl;
          match goal with
          | |- forall _ : Supabase.Response _, _ => intros [? | ?]
          | |- forall _ : Supabase.Answer _, _ => intros [? | ?]
          | |- context [if ?b then _ else _] => destruct b
          | |- True => exact I
          end).

(** One step of a proof that a program logs what fails. *)
Ltac all_logged :=
  repeat (simpl;
          match goal with
          | |- forall _ : Supabase.Response _, _ => intros [? | ?]
          | |- forall _ : Supabase.Answer _, _ => intros [? | ?]
          | |- context [if ?b then _ else _] => destruct b
          end);
  simpl; try reflexivity.

(** * Properties *)

(** ** Running programs *)

Section ProgramFacts.

Context {Req : Type} {Ans : Req -> Type}.
Implicit Types S : Service Req Ans.

Lemma result_bind S A B (p : Prog Req Ans A) (f : A -> Prog Req Ans B) w :
  result S (bind p f) w =
  match result S p w with
  | Returned a => result S (f a) (final S p w)
  | Thrown e => Thrown e
  end.
Proof.
  revert w; induction p as [a | e | lvl args k IH | q k IH]; intros w; simpl.
  - reflexivity.
  - reflexivity.
  - apply IH.
  - destruct (step S q w) as [a w']. apply IH.
Qed.

Lemma final_bind S A B (p : Prog Req Ans A) (f : A -> Prog Req Ans B) w :
  final S (bind p f) w =
  match result S p w with
  | Returned a => final S (f a) (final S p w)
  | Thrown _ => final S p w
  end.
Proof.
  revert w; induction p as [a | e | lvl args k IH | q k IH]; intros w; simpl.
  - reflexivity.
  - reflexivity.
  - apply IH.
  - destruct (step S q w) as [a w']. apply IH.
Qed.

Lemma trace_bind S A B (p : Prog Req Ans A) (f : A -> Prog Req Ans B) w :
  trace S (bind p f) w =
  trace S p w ++
  match result S p w with
  | Returned a => trace S (f a) (final S p w)
  | Thrown _ => []
  end.
Proof.
  revert w; induction p as [a | e | lvl args k IH | q k IH]; intros w; simpl.
  - reflexivity.
  - reflexivity.
  - f_equal. apply IH.
  - destruct (step S q w) as [a w']. simpl. f_equal. apply IH.
Qed.

(** What holds for every answer holds in every run. *)
Lemma always_result S A (P : Outcome A -> Prop) (p : Prog Req Ans A) :
  always P p -> forall w, P (result S p w).
Proof.
  induction p as [a | e | lvl args k IH | q k IH]; simpl; intros H w.
  - exact H.
  - exact H.
  - apply IH, H.
  - destruct (step S q w) as [a w']. apply IH, H.
Qed.

End ProgramFacts.

(** ** Sets and maps of JavaScript *)

Section JsFacts.

Lemma set_add_not_nil x seen : Js.set_add x seen = [] -> False.
Proof.
  unfold Js.set_add. destruct (existsb (String.eqb x) seen) eqn:E.
  - intros ->. discriminate E.
  - destruct seen; discriminate.
Qed.

Lemma set_to_array_from_not_nil xs seen :
  seen <> [] -> fold_left (fun seen x => Js.set_add x seen) xs seen <> [].
Proof.
  revert seen; induction xs as [| x xs IH]; intros seen Hne; simpl.
  - exact Hne.
  - apply IH. intros H. exact (set_add_not_nil _ _ H).
Qed.

(** A set built from a list is empty only when the list is. *)
Lemma set_to_array_nil xs : Js.set_to_array xs = [] -> xs = [].
Proof.
  destruct xs as [| x xs]; [reflexivity |].
  unfold Js.set_to_array. simpl. intros H. exfalso.
  revert H. apply set_to_array_from_not_nil.
  intros H. exact (set_add_not_nil _ _ H).
Qed.

Lemma length_set_to_array_0 xs :
  Nat.eqb (length (Js.set_to_array xs)) 0 = true -> xs = [].
Proof.
  intros H. apply Nat.eqb_eq in H. apply set_to_array_nil.
  destruct (Js.set_to_array xs); [reflexivity | discriminate].
Qed.

End JsFacts.

Section JsMapFacts.

Context {V : Type}.
Implicit Types (m : JsMap.t V) (k : string) (v : V).

Lemma get_set_same m k v : JsMap.get (JsMap.set k v m) k = Some v.
Proof.
  induction m as [| [k' v'] m IH]; simpl.
  - rewrite String.eqb_refl. reflexivity.
  - destruct (String.eqb k' k) eqn:E; simpl; rewrite E; [reflexivity | exact IH].
Qed.

Lemma get_set_other m k k' v :
  k <> k' -> JsMap.get (JsMap.set k v m) k' = JsMap.get m k'.
Proof.
  intros Hne. induction m as [| [k0 v0] m IH]; simpl.
  - destruct (String.eqb_spec k k'); [contradiction | reflexivity].
  - destruct (String.eqb_spec k0 k) as [-> | Hk]; simpl.
    + destruct (String.eqb_spec k k'); [contradiction | reflexivity].
    + destruct (String.eqb k0 k'); [reflexivity | exact IH].
Qed.

(** Setting a key keeps the order of the keys; a new key goes last. *)
Lemma keys_set m k v :
  JsMap.keys (JsMap.set k v m) =
  if existsb (String.eqb k) (JsMap.keys m) then JsMap.keys m
  else JsMap.keys m ++ [k].
Proof.
  induction m as [| [k' v'] m IH]; simpl.
  - reflexivity.
  - rewrite (String.eqb_sym k k').
    destruct (String.eqb_spec k' k) as [-> | Hk]; simpl.
    + reflexivity.
    + unfold JsMap.keys in *. rewrite IH.
      destruct (existsb (String.eqb k) (map fst m)); reflexivity.
Qed.

Lemma existsb_eqb_In k (l : list string) :
  existsb (String.eqb k) l = true <-> In k l.
Proof.
  rewrite existsb_exists. split.
  - intros [x [Hin Hx]]. apply String.eqb_eq in Hx. subst. exact Hin.
  - intros Hin. exists k. split; [exact Hin | apply String.eqb_refl].
Qed.

Lemma NoDup_keys_set m k v :
  NoDup (JsMap.keys m) -> NoDup (JsMap.keys (JsMap.set k v m)).
Proof.
  intros Hnd. rewrite keys_set.
  destruct (existsb (String.eqb k) (JsMap.keys m)) eqn:E; [exact Hnd |].
  apply NoDup_app; [exact Hnd | repeat constructor; intros [] | ].
  intros x Hx [<- | []].
  apply existsb_eqb_In in Hx. congruence.
Qed.

Lemma In_keys_set m k v k' :
  In k' (JsMap.keys (JsMap.set k v m)) <-> k' = k \/ In k' (JsMap.keys m).
Proof.
  rewrite keys_set.
  destruct (existsb (String.eqb k) (JsMap.keys m)) eqn:E.
  - apply existsb_eqb_In in E. split; [auto | intros [-> | H]; assumption].
  - rewrite in_app_iff. simpl. split.
    + intros [H | [H | []]]; auto.
    + intros [-> | H]; auto.
Qed.

(** An entry of the map after [set] is the one set or an older one. *)
Lemma In_set m k v e :
  In e (JsMap.set k v m) -> e = (k, v) \/ In e m.
Proof.
  induction m as [| [k' v'] m IH]; simpl.
  - intros [<- | []]. left. reflexivity.
  - destruct (String.eqb_spec k' k) as [-> | Hk]; simpl.
    + intros [<- | H]; auto.
    + intros [<- | H]; auto. destruct (IH H); auto.
Qed.

(** With distinct keys, [get] finds the entry. *)
Lemma get_In m k v :
  NoDup (JsMap.keys m) -> In (k, v) m -> JsMap.get m k = Some v.
Proof.
  induction m as [| [k' v'] m IH]; simpl; intros Hnd Hin; [contradiction |].
  inversion Hnd as [| ? ? Hnotin Hnd']; subst.
  destruct Hin as [Heq | Hin].
  - inversion Heq; subst. rewrite String.eqb_refl. reflexivity.
  - destruct (String.eqb_spec k' k) as [-> | Hk].
    + exfalso. apply Hnotin. apply (in_map fst) in Hin. exact Hin.
    + apply IH; assumption.
Qed.

Lemma get_Some_In m k v : JsMap.get m k = Some v -> In (k, v) m.
Proof.
  induction m as [| [k' v'] m IH]; simpl; [discriminate |].
  destruct (String.eqb_spec k' k) as [-> | Hk].
  - intros [= ->]. left. reflexivity.
  - intros H. right. apply IH, H.
Qed.

Lemma NoDup_keys_setAll entries m :
  NoDup (JsMap.keys m) -> NoDup (JsMap.keys (JsMap.setAll entries m)).
Proof.
  revert m; induction entries as [| e es IH]; intros m H; simpl.
  - exact H.
  - apply IH, NoDup_keys_set, H.
Qed.

Lemma In_keys_setAll entries m k :
  In k (JsMap.keys (JsMap.setAll entries m)) <->
  In k (map fst entries) \/ In k (JsMap.keys m).
Proof.
  revert m; induction entries as [| e es IH]; intros m; simpl.
  - tauto.
  - rewrite IH, In_keys_set. intuition auto.
Qed.

Lemma In_setAll entries m e :
  In e (JsMap.setAll entries m) -> In e entries \/ In e m.
Proof.
  revert m; induction entries as [| e0 es IH]; intros m; simpl.
  - auto.
  - intros H. destruct (IH _ H) as [H' | H']; [auto |].
    destruct (In_set _ _ _ _ H') as [-> | H'']; [| auto].
    left. left. destruct e0; reflexivity.
Qed.

Lemma get_setAll entries m k :
  JsMap.get (JsMap.setAll entries m) k = JsMap.lastSet k entries (JsMap.get m k).
Proof.
  revert m; induction entries as [| e es IH]; intros m; simpl.
  - reflexivity.
  - rewrite IH. f_equal.
    destruct (String.eqb_spec (fst e) k) as [<- | Hk].
    + apply get_set_same.
    + apply get_set_other, Hk.
Qed.

Lemma lastSet_app k (l1 l2 : list (string * V)) acc :
  JsMap.lastSet k (l1 ++ l2) acc = JsMap.lastSet k l2 (JsMap.lastSet k l1 acc).
Proof. unfold JsMap.lastSet. apply fold_left_app. Qed.

Lemma lastSet_absent k (l : list (string * V)) acc :
  ~ In k (map fst l) -> JsMap.lastSet k l acc = acc.
Proof.
  revert acc; induction l as [| e l IH]; intros acc H; simpl.
  - reflexivity.
  - destruct (String.eqb_spec (fst e) k) as [Heq | Hk].
    + exfalso. apply H. left. exact Heq.
    + apply IH. intros Hin. apply H. right. exact Hin.
Qed.

Lemma NoDup_keys_of_entries (entries : list (string * V)) :
  NoDup (JsMap.keys (JsMap.of_entries entries)).
Proof. apply NoDup_keys_setAll. constructor. Qed.

Lemma In_keys_of_entries (entries : list (string * V)) k :
  In k (JsMap.keys (JsMap.of_entries entries)) <-> In k (map fst entries).
Proof.
  unfold JsMap.of_entries. rewrite In_keys_setAll. simpl. tauto.
Qed.

Lemma In_of_entries (entries : list (string * V)) e :
  In e (JsMap.of_entries entries) -> In e entries.
Proof.
  intros H. destruct (In_setAll entries JsMap.empty e H) as [H' | []]. exact H'.
Qed.

Lemma get_of_entries (entries : list (string * V)) k :
  JsMap.get (JsMap.of_entries entries) k = JsMap.lastSet k entries None.
Proof. apply (get_setAll entries JsMap.empty). Qed.

End JsMapFacts.

(** ** Joining rows with profiles *)

Section Joins.
Import Supabase SupabaseService Hydration.

Lemma authorIdsOf_empty rows :
  Nat.eqb (length (authorIdsOf rows)) 0 = true -> rows = [].
Proof.
  intros E. apply length_set_to_array_0 in E. apply map_eq_nil in E. exact E.
Qed.

Lemma userIdsOf_empty rows :
  Nat.ltb 0 (length (userIdsOf rows)) = false -> rows = [].
Proof.
  intros E. apply Nat.ltb_ge in E.
  apply (map_eq_nil CommentRow.user_id), set_to_array_nil.
  fold (userIdsOf rows). destruct (userIdsOf rows); [reflexivity | simpl in E; lia].
Qed.

(** A profile the map gives for [id] is one of the profiles, with that id. *)
Lemma byId_Some profiles id a :
  JsMap.get (byId profiles) id = Some a -> In a profiles /\ Profile.id a = id.
Proof.
  intros H. apply get_Some_In, In_of_entries, in_map_iff in H.
  destruct H as [x [Hx Hin]]. inversion Hx; subst. split; [exact Hin | reflexivity].
Qed.

(** The map gives nothing for an id that no profile has. *)
Lemma byId_None profiles id :
  (forall a, In a profiles -> Profile.id a <> id) ->
  JsMap.get (byId profiles) id = None.
Proof.
  intros H. unfold byId. rewrite get_of_entries. apply lastSet_absent.
  rewrite map_map. simpl. intros Hin. apply in_map_iff in Hin.
  destruct Hin as [a [Ha Hin]]. exact (H a Hin Ha).
Qed.

Lemma row_withUnknownAuthor rows : map Post.row (map withUnknownAuthor rows) = rows.
Proof. rewrite map_map. simpl. apply map_id. Qed.

Lemma row_withAuthorFrom m rows : map Post.row (map (withAuthorFrom m) rows) = rows.
Proof. rewrite map_map. simpl. apply map_id. Qed.


Lemma hydrated_withUnknownAuthor row : hydrated (withUnknownAuthor row).
Proof. split; [discriminate | intros cs H; discriminate H]. Qed.

Lemma hydrated_withAuthorFrom m row : hydrated (withAuthorFrom m row).
Proof.
  split.
  - unfold hasAuthor, withAuthorFrom. simpl.
    destruct (JsMap.get m (PostRow.author_id row)); discriminate.
  - intros cs H. discriminate H.
Qed.

Lemma hasUser_withUserFrom m row : hasUser (withUserFrom m row).
Proof.
  unfold hasUser, withUserFrom. simpl.
  destruct (JsMap.get m (CommentRow.user_id row)); discriminate.
Qed.

Lemma unknownAuthor_withUnknownAuthor row :
  unknownAuthor "Unknown Author" (withUnknownAuthor row).
Proof. reflexivity. Qed.

(** A row whose author the batch does not resolve gets the placeholder. *)
Lemma unresolved_author r row :
  ~ resolves r (PostRow.author_id row) ->
  unknownAuthor "Unknown Author" (withAuthorFrom (byId (rowsOf r)) row).
Proof.
  intros Hno. unfold unknownAuthor, withAuthorFrom. simpl.
  rewrite byId_None; [reflexivity |].
  intros a Hin Hid. apply Hno. exists a. split; assumption.
Qed.

Lemma unresolved_user r row :
  ~ resolves r (CommentRow.user_id row) ->
  unknownUser "Unknown" (withUserFrom (byId (rowsOf r)) row).
Proof.
  intros Hno. unfold unknownUser, withUserFrom. simpl.
  rewrite byId_None; [reflexivity |].
  intros a Hin Hid. apply Hno. exists a. split; assumption.
Qed.

End Joins.

(** ** The bulk listing *)

Section GetPosts.
Import Supabase SupabaseService Hydration.

Variable B : Backend.

Lemma getPosts_query_failed w e w1 :
  step B PostsNewestFirst w = (Failure e, w1) ->
  result B getPosts w = Returned [].
Proof.
  intros H. unfold getPosts. simpl. rewrite H. reflexivity.
Qed.

Lemma getPosts_profiles_failed w rows w1 e w2 :
  step B PostsNewestFirst w = (Success rows, w1) ->
  step B (ProfilesIn (authorIdsOf rows)) w1 = (Failure e, w2) ->
  result B getPosts w = Returned (map withUnknownAuthor rows).
Proof.
  intros H1 H2. unfold getPosts. simpl. rewrite H1. simpl.
  destruct (Nat.eqb (length (authorIdsOf rows)) 0) eqn:E.
  - apply authorIdsOf_empty in E. subst rows. reflexivity.
  - simpl. rewrite H2. reflexivity.
Qed.

Lemma getPosts_profiles_found w rows w1 profiles w2 :
  step B PostsNewestFirst w = (Success rows, w1) ->
  step B (ProfilesIn (authorIdsOf rows)) w1 = (Success profiles, w2) ->
  result B getPosts w = Returned (map (withAuthorFrom (byId profiles)) rows).
Proof.
  intros H1 H2. unfold getPosts. simpl. rewrite H1. simpl.
  destruct (Nat.eqb (length (authorIdsOf rows)) 0) eqn:E.
  - apply authorIdsOf_empty in E. subst rows. reflexivity.
  - simpl. rewrite H2. reflexivity.
Qed.

End GetPosts.

(** ** One post with its thread *)

Section GetPostById.
Import Supabase SupabaseService Hydration.

Variable B : Backend.

Lemma getPostById_query_failed id w e w1 :
  step B (PostById id) w = (Failure e, w1) ->
  result B (getPostById id) w = Returned None.
Proof.
  intros H. unfold getPostById. simpl. rewrite H. reflexivity.
Qed.

Lemma getPostById_comments_failed id w row w1 ar w2 e w3 :
  step B (PostById id) w = (Success row, w1) ->
  step B (ProfileById (PostRow.author_id row)) w1 = (ar, w2) ->
  step B (CommentsOldestFirst id) w2 = (Failure e, w3) ->
  result B (getPostById id) w =
  Returned (Some (Post.mk row (authorOr (data ar) row) (Some []))).
Proof.
  intros H1 H2 H3. unfold getPostById. simpl. rewrite H1. simpl. rewrite H2.
  destruct ar; simpl; rewrite H3; reflexivity.
Qed.

Lemma getPostById_found id w row w1 ar w2 rows w3 ur w4 :
  step B (PostById id) w = (Success row, w1) ->
  step B (ProfileById (PostRow.author_id row)) w1 = (ar, w2) ->
  step B (CommentsOldestFirst id) w2 = (Success rows, w3) ->
  step B (ProfilesIn (userIdsOf rows)) w3 = (ur, w4) ->
  result B (getPostById id) w =
  Returned (Some (Post.mk row (authorOr (data ar) row)
                    (Some (map (withUserFrom (byId (rowsOf ur))) rows)))).
Proof.
  intros H1 H2 H3 H4. unfold getPostById. simpl. rewrite H1. simpl. rewrite H2.
  destruct (Nat.ltb 0 (length (userIdsOf rows))) eqn:E.
  - destruct ar, ur; simpl; rewrite H3; simpl; rewrite E; simpl; rewrite H4;
      reflexivity.
  - apply userIdsOf_empty in E. subst rows.
    destruct ar; simpl; rewrite H3; reflexivity.
Qed.


Lemma getPostById_never_throws id :
  always (fun o => exists found, o = Returned found) (getPostById id).
Proof.
  unfold getPostById. answer_cases; eauto.
Qed.

Lemma getPostById_hydrated id :
  always (returns (fun found => forall p, found = Some p -> hydrated p))
         (getPostById id).
Proof.
  unfold getPostById. answer_cases;
    try (intros p [= <-]; split;
         [ discriminate
         | simpl; intros cs [= <-];
           try constructor; apply Forall_map, Forall_forall; intros;
           apply hasUser_withUserFrom ]);
    try discriminate.
Qed.

End GetPostById.

(** ** The posts of one author *)

Section GetPostsByAuthor.
Import Supabase SupabaseService Hydration.

Variable B : Backend.

Lemma getPostsByAuthor_profile_failed authorId w e w1 :
  step B (ProfileById authorId) w = (Failure e, w1) ->
  result B (getPostsByAuthor authorId) w = Returned [] /\
  requests (trace B (getPostsByAuthor authorId) w) = [ProfileById authorId].
Proof.
  intros H. unfold getPostsByAuthor. simpl. rewrite H. split; reflexivity.
Qed.

Lemma getPostsByAuthor_profile_found authorId w profile w1 pr w2 :
  step B (ProfileById authorId) w = (Success profile, w1) ->
  step B (PostsByAuthor authorId) w1 = (pr, w2) ->
  result B (getPostsByAuthor authorId) w =
  Returned (map (fun row => Post.mk row (Some profile) None) (rowsOf pr)).
Proof.
  intros H1 H2. unfold getPostsByAuthor. simpl. rewrite H1. simpl. rewrite H2.
  destruct pr; reflexivity.
Qed.

Lemma getPostsByAuthor_hydrated authorId :
  always (returns (Forall hydrated)) (getPostsByAuthor authorId).
Proof.
  unfold getPostsByAuthor. answer_cases; try constructor.
  apply Forall_map, Forall_forall. intros row _.
  split; [discriminate | intros cs H; discriminate H].
Qed.

End GetPostsByAuthor.

(** ** The two writes *)

Section Writes.
Import Supabase SupabaseService Hydration.

Variable B : Backend.

Lemma createPost_insert_failed postData w e w1 :
  step B (InsertPost postData) w = (Failure e, w1) ->
  result B (createPost postData) w = Thrown (Js.Error "Could not create post.") /\
  requests (trace B (createPost postData) w) = [InsertPost postData] /\
  final B (createPost postData) w = w1.
Proof.
  intros H. unfold createPost. simpl. rewrite H. repeat split.
Qed.

Lemma createPost_inserted postData w row w1 pr w2 :
  step B (InsertPost postData) w = (Success row, w1) ->
  step B (FullProfileById (PostRow.author_id row)) w1 = (pr, w2) ->
  result B (createPost postData) w =
  Returned (Post.mk row
              (Js.or (data pr)
                     (Some (placeholder (PostRow.author_id row) "Unknown")))
              None).
Proof.
  intros H1 H2. unfold createPost. simpl. rewrite H1. simpl. rewrite H2.
  destruct pr; reflexivity.
Qed.

Lemma createPost_outcome postData :
  always (fun o => match o with
                   | Returned p => hydrated p
                   | Thrown e => e = Js.Error "Could not create post."
                   end) (createPost postData).
Proof.
  unfold createPost. answer_cases; try reflexivity;
    (split; [discriminate | intros cs H; discriminate H]).
Qed.

Lemma addComment_insert_failed commentData w e w1 :
  let row := mkNewComment (postId commentData) (user_id commentData)
                          (text commentData) in
  step B (InsertComment row) w = (Failure e, w1) ->
  result B (addComment commentData) w = Thrown (Js.Error "Could not add comment.") /\
  requests (trace B (addComment commentData) w) = [InsertComment row] /\
  final B (addComment commentData) w = w1.
Proof.
  intros row H. unfold addComment. simpl. fold row. rewrite H. repeat split.
Qed.

Lemma addComment_inserted commentData w inserted w1 :
  step B (InsertComment (mkNewComment (postId commentData) (user_id commentData)
                                      (text commentData))) w
  = (Success inserted, w1) ->
  result B (addComment commentData) w = Returned (Some inserted).
Proof.
  intros H. unfold addComment. simpl. rewrite H. reflexivity.
Qed.

End Writes.

(** ** Search *)

Section SearchPosts.
Import Supabase SupabaseService Hydration.

Variable B : Backend.

Lemma mergeById_empty titleRows contentRows :
  Nat.eqb (length (mergeById titleRows contentRows)) 0 = true ->
  mergeById titleRows contentRows = [].
Proof.
  intros E. apply Nat.eqb_eq in E.
  destruct (mergeById titleRows contentRows); [reflexivity | discriminate].
Qed.

(** What a search returns, from the three answers it gets. *)
Lemma searchPosts_run query w tr w1 cr w2 pr w3 :
  Js.falsy query = false ->
  step B (PostsTextSearch Title (formatQuery query)) w = (tr, w1) ->
  step B (PostsTextSearch Content (formatQuery query)) w1 = (cr, w2) ->
  step B (ProfilesIn (authorIdsOf (mergeById (rowsOf tr) (rowsOf cr)))) w2 = (pr, w3) ->
  result B (searchPosts query) w =
  Returned
    match pr with
    | Failure _ => map withUnknownAuthor (mergeById (rowsOf tr) (rowsOf cr))
    | Success profiles =>
        map (withAuthorFrom (byId profiles)) (mergeById (rowsOf tr) (rowsOf cr))
    end.
Proof.
  intros Hq H1 H2 H3. unfold searchPosts. rewrite Hq. simpl. rewrite H1, H2.
  assert (Hgo :
    result B
      (if Nat.eqb (length (mergeById (rowsOf tr) (rowsOf cr))) 0 then Ret []
       else
         pr <- await (ProfilesIn (authorIdsOf (mergeById (rowsOf tr) (rowsOf cr)))) ;;
         match error pr with
         | Some profilesError =>
             console_warn ["Error fetching author profiles for search results:";
                           message profilesError] ;;;
             Ret (map withUnknownAuthor (mergeById (rowsOf tr) (rowsOf cr)))
         | None =>
             profilesData <- deref (data pr) ;;
             Ret (map (withAuthorFrom (byId profilesData))
                      (mergeById (rowsOf tr) (rowsOf cr)))
         end) w2 =
    Returned
      match pr with
      | Failure _ => map withUnknownAuthor (mergeById (rowsOf tr) (rowsOf cr))
      | Success profiles =>
          map (withAuthorFrom (byId profiles)) (mergeById (rowsOf tr) (rowsOf cr))
      end).
  { destruct (Nat.eqb (length (mergeById (rowsOf tr) (rowsOf cr))) 0) eqn:E.
    - apply mergeById_empty in E. rewrite E. destruct pr; reflexivity.
    - simpl. rewrite H3. destruct pr; reflexivity. }
  destruct tr, cr; simpl; exact Hgo.
Qed.

Lemma searchPosts_hydrated query :
  always (returns (Forall hydrated)) (searchPosts query).
Proof.
  unfold searchPosts. answer_cases; try constructor;
    apply Forall_map, Forall_forall; intros row _;
    first [apply hydrated_withUnknownAuthor | apply hydrated_withAuthorFrom].
Qed.

End SearchPosts.

(** ** Merging the two result sets *)

Section Merge.
Import Supabase SupabaseService Hydration.

Lemma mergeById_entries titleRows contentRows e :
  In e (JsMap.of_entries (map entryOf (titleRows ++ contentRows))) ->
  fst e = PostRow.id (snd e) /\ In (snd e) (titleRows ++ contentRows).
Proof.
  intros H. apply In_of_entries, in_map_iff in H.
  destruct H as [row [<- Hin]]. split; [reflexivity | exact Hin].
Qed.

(** The ids of the merged rows are the keys of the map, in its order. *)
Lemma mergeById_ids titleRows contentRows :
  map PostRow.id (mergeById titleRows contentRows) =
  JsMap.keys (JsMap.of_entries (map entryOf (titleRows ++ contentRows))).
Proof.
  unfold mergeById, JsMap.values, JsMap.keys.
  rewrite map_map. apply map_ext_in. intros e He.
  symmetry. apply (mergeById_entries _ _ _ He).
Qed.

Lemma mergeById_NoDup titleRows contentRows :
  NoDup (map PostRow.id (mergeById titleRows contentRows)).
Proof. rewrite mergeById_ids. apply NoDup_keys_of_entries. Qed.

(** The merged ids are the ids of the two lists together. *)
Lemma mergeById_union titleRows contentRows k :
  In k (map PostRow.id (mergeById titleRows contentRows)) <->
  In k (map PostRow.id titleRows) \/ In k (map PostRow.id contentRows).
Proof.
  rewrite mergeById_ids, In_keys_of_entries, map_map. simpl.
  rewrite map_app, in_app_iff. tauto.
Qed.

(** A merged row is the one the map holds for its id. *)
Lemma mergeById_get titleRows contentRows row :
  In row (mergeById titleRows contentRows) <->
  JsMap.get (JsMap.of_entries (map entryOf (titleRows ++ contentRows)))
            (PostRow.id row) = Some row.
Proof.
  unfold mergeById, JsMap.values. split.
  - intros H. apply in_map_iff in H. destruct H as [[k v] [Hv He]].
    simpl in Hv. subst v.
    destruct (mergeById_entries _ _ _ He) as [Hk _]. simpl in Hk. subst k.
    apply get_In; [apply NoDup_keys_of_entries | exact He].
  - intros H. apply get_Some_In in H. apply (in_map snd) in H. exact H.
Qed.

(** The last content row of an id is the row the map holds for it. *)
Lemma mergeById_last titleRows before c after :
  ~ In (PostRow.id c) (map PostRow.id after) ->
  JsMap.get (JsMap.of_entries (map entryOf (titleRows ++ before ++ c :: after)))
            (PostRow.id c) = Some c.
Proof.
  intros Hlast. rewrite get_of_entries.
  rewrite app_assoc, map_app, lastSet_app. simpl.
  rewrite String.eqb_refl. apply lastSet_absent.
  rewrite map_map. exact Hlast.
Qed.

End Merge.

(** * The claims *)

Section Claims.
Import Supabase SupabaseService Hydration Samples.

Lemma returns_Returned A (P : A -> Prop) (o : Outcome A) :
  returns P o -> exists a, o = Returned a /\ P a.
Proof. destruct o as [a | e]; simpl; [eauto | contradiction]. Qed.

Lemma getPosts_hydrated : always (returns (Forall hydrated)) getPosts.
Proof.
  unfold getPosts. answer_cases; try constructor;
    apply Forall_map, Forall_forall; intros row _;
    first [apply hydrated_withUnknownAuthor | apply hydrated_withAuthorFrom].
Qed.

(** What the listing returns, from the two answers it gets. *)
Lemma getPosts_run (B : Backend) (w : state B) r0 w1 r w2 :
  step B PostsNewestFirst w = (r0, w1) ->
  step B (ProfilesIn (authorIdsOf (rowsOf r0))) w1 = (r, w2) ->
  result B getPosts w =
  Returned
    match r with
    | Failure _ => map withUnknownAuthor (rowsOf r0)
    | Success profiles => map (withAuthorFrom (byId profiles)) (rowsOf r0)
    end.
Proof.
  intros H1 H2. destruct r0 as [rows | e0].
  - destruct r as [profiles | e].
    + apply (getPosts_profiles_found B w rows w1 profiles w2 H1 H2).
    + apply (getPosts_profiles_failed B w rows w1 e w2 H1 H2).
  - rewrite (getPosts_query_failed B w e0 w1 H1). destruct r; reflexivity.
Qed.

(** C3: whatever the posts query and the profile batch lookup answer,
    [getPosts] returns one post per row of the posts query, in the same
    order and with the row unchanged (no row is dropped, none is added),
    and when the batch lookup fails every post carries the author
    [{ id: author_id, name: "Unknown Author" }]. *)
Theorem getPosts_keeps_every_row (B : Backend) (w : state B) r0 w1 r w2 :
  step B PostsNewestFirst w = (r0, w1) ->
  step B (ProfilesIn (authorIdsOf (rowsOf r0))) w1 = (r, w2) ->
  exists posts,
    result B getPosts w = Returned posts /\
    length posts = length (rowsOf r0) /\
    map Post.row posts = rowsOf r0 /\
    (forall e, r = Failure e -> Forall (unknownAuthor "Unknown Author") posts).
Proof.
  intros H1 H2. eexists. split; [apply (getPosts_run B w r0 w1 r w2 H1 H2) |].
  destruct r as [profiles | e].
  - split; [apply length_map |]. split; [apply row_withAuthorFrom |].
    intros e H. discriminate H.
  - split; [apply length_map |]. split; [apply row_withUnknownAuthor |].
    intros _ _. apply Forall_map, Forall_forall. intros row _.
    apply unknownAuthor_withUnknownAuthor.
Qed.

Lemma getPosts_keeps_every_row_witness :
  exists posts,
    result (canned noProfiles) getPosts 0 = Returned posts /\
    length posts = 3 /\
    map Post.row posts = [post3; post2; post1] /\
    (forall e, @Failure (list Profile.t) down = Failure e ->
               Forall (unknownAuthor "Unknown Author") posts).
Proof.
  exact (getPosts_keeps_every_row (canned noProfiles) 0
           (Success [post3; post2; post1]) 1 (Failure down) 2 eq_refl eq_refl).
Defined.

(** C4: the posts a search returns are the rows of the title query and of
    the content query merged by id.  No id occurs twice, the ids are those
    of the two result sets together, and for a post matched by both
    queries the one copy that is returned is the copy of the content
    query (the last row of that id among the content rows), whether or not
    it equals the title query's copy. *)
Theorem searchPosts_merges_by_id (B : Backend) (w : state B) query
    tr w1 cr w2 t c before after :
  Js.falsy query = false ->
  step B (PostsTextSearch Title (formatQuery query)) w = (tr, w1) ->
  step B (PostsTextSearch Content (formatQuery query)) w1 = (cr, w2) ->
  In t (rowsOf tr) ->
  rowsOf cr = before ++ c :: after ->
  ~ In (PostRow.id c) (map PostRow.id after) ->
  PostRow.id t = PostRow.id c ->
  exists posts,
    result B (searchPosts query) w = Returned posts /\
    map Post.row posts = mergeById (rowsOf tr) (rowsOf cr) /\
    NoDup (map PostRow.id (map Post.row posts)) /\
    (forall k, In k (map PostRow.id (map Post.row posts)) <->
               In k (map PostRow.id (rowsOf tr)) \/ In k (map PostRow.id (rowsOf cr))) /\
    count_occ string_dec (map PostRow.id (map Post.row posts)) (PostRow.id t) = 1 /\
    In c (map Post.row posts) /\
    (forall p, In p posts -> PostRow.id (Post.row p) = PostRow.id t -> Post.row p = c).
Proof.
  intros Hq H1 H2 Ht Hc Hlast Hid.
  destruct (step B (ProfilesIn (authorIdsOf (mergeById (rowsOf tr) (rowsOf cr)))) w2)
    as [pr w3] eqn:H3.
  eexists. split; [apply (searchPosts_run B query w tr w1 cr w2 pr w3 Hq H1 H2 H3) |].
  assert (Hrows :
    map Post.row
      match pr with
      | Failure _ => map withUnknownAuthor (mergeById (rowsOf tr) (rowsOf cr))
      | Success profiles =>
          map (withAuthorFrom (byId profiles)) (mergeById (rowsOf tr) (rowsOf cr))
      end = mergeById (rowsOf tr) (rowsOf cr)).
  { destruct pr; [apply row_withAuthorFrom | apply row_withUnknownAuthor]. }
  rewrite Hrows.
  assert (Hget :
    JsMap.get (JsMap.of_entries (map entryOf (rowsOf tr ++ rowsOf cr))) (PostRow.id c)
    = Some c).
  { rewrite Hc. apply mergeById_last, Hlast. }
  assert (Hin : In c (mergeById (rowsOf tr) (rowsOf cr))).
  { apply mergeById_get. exact Hget. }
  split; [reflexivity |].
  split; [apply mergeById_NoDup |].
  split; [apply mergeById_union |].
  split.
  { apply (proj1 (NoDup_count_occ' string_dec _) (mergeById_NoDup _ _)).
    rewrite Hid. apply in_map, Hin. }
  split; [exact Hin |].
  intros p Hp Hpid.
  assert (Hrow : In (Post.row p) (mergeById (rowsOf tr) (rowsOf cr))).
  { rewrite <- Hrows. apply in_map, Hp. }
  apply mergeById_get in Hrow. rewrite Hpid, Hid, Hget in Hrow.
  inversion Hrow. reflexivity.
Qed.

Lemma searchPosts_merges_by_id_witness :
  exists posts,
    result (canned healthy) (searchPosts "hello") 0 = Returned posts /\
    map Post.row posts = mergeById [post1; post2] [post1'; post3] /\
    NoDup (map PostRow.id (map Post.row posts)) /\
    (forall k, In k (map PostRow.id (map Post.row posts)) <->
               In k ["p1"; "p2"] \/ In k ["p1"; "p3"]) /\
    count_occ string_dec (map PostRow.id (map Post.row posts)) "p1" = 1 /\
    In post1' (map Post.row posts) /\
    (forall p, In p posts -> PostRow.id (Post.row p) = "p1" -> Post.row p = post1').
Proof.
  refine (searchPosts_merges_by_id (canned healthy) 0 "hello"
            (Success [post1; post2]) 1 (Success [post1'; post3]) 2
            post1 post1' [] [post3] eq_refl eq_refl eq_refl _ eq_refl _ eq_refl).
  - simpl. left. reflexivity.
  - simpl. intros [H | []]. discriminate H.
Defined.

(** C5: [getPostsByAuthor] fetches the profile first.  When that fetch
    fails the result is the empty list and the posts are not even
    asked for, so no post with a placeholder author is ever returned; when
    it succeeds, the posts are the rows of the posts query, each with the
    fetched profile itself as its author. *)
Theorem getPostsByAuthor_needs_the_profile (B : Backend) (w : state B)
    authorId r w1 pr w2 :
  step B (ProfileById authorId) w = (r, w1) ->
  step B (PostsByAuthor authorId) w1 = (pr, w2) ->
  exists posts,
    result B (getPostsByAuthor authorId) w = Returned posts /\
    match r with
    | Failure _ =>
        posts = [] /\
        requests (trace B (getPostsByAuthor authorId) w) = [ProfileById authorId]
    | Success profile =>
        map Post.row posts = rowsOf pr /\
        Forall (fun p => Post.author p = Some profile) posts
    end.
Proof.
  intros H1 H2. destruct r as [profile | e].
  - eexists. split; [apply (getPostsByAuthor_profile_found B _ _ _ _ _ _ H1 H2) |].
    split.
    + rewrite map_map. simpl. apply map_id.
    + apply Forall_map, Forall_forall. intros row _. reflexivity.
  - destruct (getPostsByAuthor_profile_failed B _ _ _ _ H1) as [Hres Hreq].
    exists []. split; [exact Hres |]. split; [reflexivity | exact Hreq].
Qed.

Lemma getPostsByAuthor_needs_the_profile_witness :
  exists posts,
    result (canned noProfiles) (getPostsByAuthor "u1") 0 = Returned posts /\
    posts = [] /\
    requests (trace (canned noProfiles) (getPostsByAuthor "u1") 0) = [ProfileById "u1"].
Proof.
  exact (getPostsByAuthor_needs_the_profile (canned noProfiles) 0 "u1"
           (Failure down) 1 (Success [post3; post2; post1]) 2 eq_refl eq_refl).
Defined.

(** C6: [getPostById] never throws.  When the post query fails it returns
    [null], whatever the failure is (no row of that id, or the request
    itself went wrong): the caller gets the same value in both cases.
    When the query gives a row, the post built from it is returned. *)
Theorem getPostById_null_on_failure (B : Backend) (w : state B) id r w1 :
  step B (PostById id) w = (r, w1) ->
  (exists found, result B (getPostById id) w = Returned found) /\
  (forall e, r = Failure e -> result B (getPostById id) w = Returned None) /\
  (forall row, r = Success row ->
     exists p, result B (getPostById id) w = Returned (Some p) /\ Post.row p = row).
Proof.
  intros H. split; [| split].
  - apply (always_result B _ _ _ (getPostById_never_throws id)).
  - intros e ->. apply (getPostById_query_failed B id w e w1 H).
  - intros row ->.
    destruct (step B (ProfileById (PostRow.author_id row)) w1) as [ar w2] eqn:H2.
    destruct (step B (CommentsOldestFirst id) w2) as [[rows | e] w3] eqn:H3.
    + destruct (step B (ProfilesIn (userIdsOf rows)) w3) as [ur w4] eqn:H4.
      eexists. split; [apply (getPostById_found B _ _ _ _ _ _ _ _ _ _ H H2 H3 H4) |].
      reflexivity.
    + eexists. split; [apply (getPostById_comments_failed B _ _ _ _ _ _ _ _ H H2 H3) |].
      reflexivity.
Qed.

Lemma getPostById_null_on_failure_witness :
  (exists found, result (canned offline) (getPostById "p404") 0 = Returned found) /\
  (forall e, @Failure PostRow.t down = Failure e ->
             result (canned offline) (getPostById "p404") 0 = Returned None) /\
  (forall row, Failure down = Success row ->
     exists p, result (canned offline) (getPostById "p404") 0 = Returned (Some p)
               /\ Post.row p = row).
Proof.
  exact (getPostById_null_on_failure (canned offline) 0 "p404" (Failure down) 1 eq_refl).
Defined.

(** C7: [createPost] and [addComment] throw exactly when their insert
    fails: a failed insert gives the generic error ("Could not create
    post." / "Could not add comment."), the insert is then the only
    request of the call and the backend is left as the failed insert left
    it; a successful insert gives a return value.  The four read
    operations never throw. *)
Theorem only_failed_inserts_throw (B : Backend) (w : state B) :
  (forall postData,
     match fst (step B (InsertPost postData) w) with
     | Failure _ =>
         result B (createPost postData) w = Thrown (Js.Error "Could not create post.") /\
         requests (trace B (createPost postData) w) = [InsertPost postData] /\
         final B (createPost postData) w = snd (step B (InsertPost postData) w)
     | Success _ => exists p, result B (createPost postData) w = Returned p
     end) /\
  (forall commentData,
     let row := mkNewComment (postId commentData) (user_id commentData)
                             (text commentData) in
     match fst (step B (InsertComment row) w) with
     | Failure _ =>
         result B (addComment commentData) w = Thrown (Js.Error "Could not add comment.") /\
         requests (trace B (addComment commentData) w) = [InsertComment row] /\
         final B (addComment commentData) w = snd (step B (InsertComment row) w)
     | Success inserted =>
         result B (addComment commentData) w = Returned (Some inserted)
     end) /\
  (exists posts, result B getPosts w = Returned posts) /\
  (forall id, exists found, result B (getPostById id) w = Returned found) /\
  (forall authorId, exists posts, result B (getPostsByAuthor authorId) w = Returned posts) /\
  (forall query, exists posts, result B (searchPosts query) w = Returned posts).
Proof.
  repeat split.
  - intros postData.
    destruct (step B (InsertPost postData) w) as [[row | e] w1] eqn:H; simpl.
    + destruct (step B (FullProfileById (PostRow.author_id row)) w1) as [pr w2] eqn:H2.
      eexists. apply (createPost_inserted B _ _ _ _ _ _ H H2).
    + apply (createPost_insert_failed B _ _ _ _ H).
  - intros commentData row.
    destruct (step B (InsertComment row) w) as [[inserted | e] w1] eqn:H; simpl.
    + apply (addComment_inserted B _ _ _ _ H).
    + apply (addComment_insert_failed B _ _ _ _ H).
  - destruct (returns_Returned _ _ _ (always_result B _ _ _ getPosts_hydrated w))
      as [posts [H _]]. eauto.
  - intros id. apply (always_result B _ _ _ (getPostById_never_throws id)).
  - intros authorId.
    destruct (returns_Returned _ _ _
                (always_result B _ _ _ (getPostsByAuthor_hydrated authorId) w))
      as [posts [H _]]. eauto.
  - intros query.
    destruct (returns_Returned _ _ _
                (always_result B _ _ _ (searchPosts_hydrated query) w))
      as [posts [H _]]. eauto.
Qed.




(** C1: every post that [getPosts], [getPostById], [getPostsByAuthor],
    [searchPosts] or [createPost] returns has an author, and every comment
    of a post [getPostById] returns has a user ([createPost] returns a post
    or throws its creation error).  Where the profile lookup failed, or
    gave no profile for the id, the field holds the placeholder
    [{ id, name }]: "Unknown Author" in the listing and in search,
    "Unknown" in [getPostById] and [createPost].  [getPostsByAuthor]
    needs no placeholder: after a failed lookup it returns no post. *)
Theorem every_result_is_hydrated (B : Backend) (w : state B) :
  returns (Forall hydrated) (result B getPosts w) /\
  (forall id,
     returns (fun found => forall p, found = Some p -> hydrated p)
             (result B (getPostById id) w)) /\
  (forall authorId, returns (Forall hydrated) (result B (getPostsByAuthor authorId) w)) /\
  (forall query, returns (Forall hydrated) (result B (searchPosts query) w)) /\
  (forall postData,
     match result B (createPost postData) w with
     | Returned p => hydrated p
     | Thrown e => e = Js.Error "Could not create post."
     end) /\
  (forall rows w1 r w2 posts p,
     step B PostsNewestFirst w = (Success rows, w1) ->
     step B (ProfilesIn (authorIdsOf rows)) w1 = (r, w2) ->
     result B getPosts w = Returned posts ->
     In p posts ->
     ~ resolves r (PostRow.author_id (Post.row p)) ->
     unknownAuthor "Unknown Author" p) /\
  (forall id row w1 e w2 p,
     step B (PostById id) w = (Success row, w1) ->
     step B (ProfileById (PostRow.author_id row)) w1 = (Failure e, w2) ->
     result B (getPostById id) w = Returned (Some p) ->
     unknownAuthor "Unknown" p) /\
  (forall id row w1 ar w2 rows w3 ur w4 p cs c,
     step B (PostById id) w = (Success row, w1) ->
     step B (ProfileById (PostRow.author_id row)) w1 = (ar, w2) ->
     step B (CommentsOldestFirst id) w2 = (Success rows, w3) ->
     step B (ProfilesIn (userIdsOf rows)) w3 = (ur, w4) ->
     result B (getPostById id) w = Returned (Some p) ->
     Post.comments p = Some cs ->
     In c cs ->
     ~ resolves ur (CommentRow.user_id (Comment.row c)) ->
     unknownUser "Unknown" c) /\
  (forall query tr w1 cr w2 r w3 posts p,
     Js.falsy query = false ->
     step B (PostsTextSearch Title (formatQuery query)) w = (tr, w1) ->
     step B (PostsTextSearch Content (formatQuery query)) w1 = (cr, w2) ->
     step B (ProfilesIn (authorIdsOf (mergeById (rowsOf tr) (rowsOf cr)))) w2 = (r, w3) ->
     result B (searchPosts query) w = Returned posts ->
     In p posts ->
     ~ resolves r (PostRow.author_id (Post.row p)) ->
     unknownAuthor "Unknown Author" p) /\
  (forall postData row w1 e w2 p,
     step B (InsertPost postData) w = (Success row, w1) ->
     step B (FullProfileById (PostRow.author_id row)) w1 = (Failure e, w2) ->
     result B (createPost postData) w = Returned p ->
     unknownAuthor "Unknown" p).
Proof.
  split; [apply (always_result B _ _ _ getPosts_hydrated) |].
  split; [intros id; apply (always_result B _ _ _ (getPostById_hydrated id)) |].
  split; [intros a; apply (always_result B _ _ _ (getPostsByAuthor_hydrated a)) |].
  split; [intros q; apply (always_result B _ _ _ (searchPosts_hydrated q)) |].
  split; [intros d; apply (always_result B _ _ _ (createPost_outcome d)) |].
  split; [| split; [| split; [| split]]].
  - intros rows w1 r w2 posts p H1 H2 Hres Hin Hno.
    rewrite (getPosts_run B w (Success rows) w1 r w2 H1 H2) in Hres.
    injection Hres as <-. destruct r as [profiles | e];
      apply in_map_iff in Hin; destruct Hin as [row [<- _]].
    + apply (unresolved_author (Success profiles)). exact Hno.
    + apply unknownAuthor_withUnknownAuthor.
  - intros id row w1 e w2 p H1 H2 Hres.
    destruct (step B (CommentsOldestFirst id) w2) as [[rows | e'] w3] eqn:H3.
    + destruct (step B (ProfilesIn (userIdsOf rows)) w3) as [ur w4] eqn:H4.
      rewrite (getPostById_found B _ _ _ _ _ _ _ _ _ _ H1 H2 H3 H4) in Hres.
      injection Hres as <-. reflexivity.
    + rewrite (getPostById_comments_failed B _ _ _ _ _ _ _ _ H1 H2 H3) in Hres.
      injection Hres as <-. reflexivity.
  - intros id row w1 ar w2 rows w3 ur w4 p cs c H1 H2 H3 H4 Hres Hcs Hin Hno.
    rewrite (getPostById_found B _ _ _ _ _ _ _ _ _ _ H1 H2 H3 H4) in Hres.
    injection Hres as <-. simpl in Hcs. injection Hcs as <-.
    apply in_map_iff in Hin. destruct Hin as [row' [<- _]].
    apply unresolved_user. exact Hno.
  - intros query tr w1 cr w2 r w3 posts p Hq H1 H2 H3 Hres Hin Hno.
    rewrite (searchPosts_run B query w tr w1 cr w2 r w3 Hq H1 H2 H3) in Hres.
    injection Hres as <-. destruct r as [profiles | e];
      apply in_map_iff in Hin; destruct Hin as [row [<- _]].
    + apply (unresolved_author (Success profiles)). exact Hno.
    + apply unknownAuthor_withUnknownAuthor.
  - intros postData row w1 e w2 p H1 H2 Hres.
    rewrite (createPost_inserted B _ _ _ _ _ _ H1 H2) in Hres.
    injection Hres as <-. reflexivity.
Qed.

(** C2 (the code departs from it): the empty query is answered with the
    empty list and nothing is asked of the backend, but a query of three
    spaces passes the guard [!query], trims to the empty string and is
    sent: both text searches are issued with the query [""], whatever the
    backend is, and with a backend that returns rows for them the result
    is not empty. *)
Theorem searchPosts_blank_query_is_sent (B : Backend) (w : state B) :
  searchPosts "" = Ret [] /\
  (exists rest,
     requests (trace B (searchPosts "   ") w) =
     PostsTextSearch Title "" :: PostsTextSearch Content "" :: rest) /\
  (exists posts,
     result (canned healthy) (searchPosts "   ") 0 = Returned posts /\
     map Post.row posts = [post1'; post2; post3]).
Proof.
  split; [reflexivity |]. split.
  - unfold searchPosts. simpl.
    change (formatQuery "   ") with "".
    destruct (step B (PostsTextSearch Title "") w) as [tr w1].
    destruct (step B (PostsTextSearch Content "") w1) as [cr w2].
    simpl. eexists. reflexivity.
  - eexists. split; reflexivity.
Qed.

End Claims.

(** ** The summary service *)

Section Summaries.
Import GeminiService Samples.

Variable G : Gemini.

(** The length checks come after the client is built, so they are
    reached only when building it did not throw. *)
Lemma generateSummary_no_client content w e w1 :
  step G NewGoogleGenAI w = (Abrupt e, w1) ->
  result G (generateSummary content) w = Returned userError /\
  requests (trace G (generateSummary content) w) = [NewGoogleGenAI].
Proof.
  intros H. unfold generateSummary. simpl. rewrite H. split; reflexivity.
Qed.

Lemma generateSummary_empty w c0 w1 :
  step G NewGoogleGenAI w = (c0, w1) ->
  result G (generateSummary "") w = Returned userError /\
  requests (trace G (generateSummary "") w) = [NewGoogleGenAI].
Proof.
  intros H. unfold generateSummary. simpl. rewrite H.
  destruct c0; split; reflexivity.
Qed.

Lemma generateSummary_too_short content w u w1 :
  step G NewGoogleGenAI w = (Normal u, w1) ->
  Js.falsy content = false ->
  String.length content < 50 ->
  result G (generateSummary content) w = Returned tooShort /\
  requests (trace G (generateSummary content) w) = [NewGoogleGenAI].
Proof.
  intros H Hne Hlen. apply Nat.ltb_lt in Hlen.
  unfold generateSummary. simpl. rewrite H. simpl. rewrite Hne, Hlen.
  split; reflexivity.
Qed.

(** With the client built and content long enough, the outcome follows
    the answer of the model. *)
Lemma generateSummary_asks content w u w1 c w2 :
  step G NewGoogleGenAI w = (Normal u, w1) ->
  50 <= String.length content ->
  step G (GenerateContent "gemini-2.5-flash" (promptFor content)) w1 = (c, w2) ->
  result G (generateSummary content) w =
  Returned match c with
           | Normal (Some text) => if Js.falsy text then userError else text
           | Normal None => userError
           | Abrupt _ => userError
           end.
Proof.
  intros H Hlen H2.
  assert (Hne : Js.falsy content = false).
  { destruct content; [simpl in Hlen; lia | reflexivity]. }
  apply Nat.ltb_ge in Hlen.
  unfold generateSummary. simpl. rewrite H. simpl. rewrite Hne, Hlen. simpl.
  rewrite H2. destruct c as [[text |] | e]; simpl; try reflexivity.
  destruct (Js.falsy text); reflexivity.
Qed.

Lemma falsy_empty s : Js.falsy s = true <-> s = "".
Proof. destruct s; simpl; split; intros H; try reflexivity; discriminate H. Qed.

Lemma generateSummary_returns content :
  always (fun o => exists s, o = Returned s) (generateSummary content).
Proof.
  unfold generateSummary. simpl. intros [[] | e]; simpl; [| eauto].
  destruct (Js.falsy content); simpl; [eauto |].
  destruct (Nat.ltb (String.length content) 50); simpl; [eauto |].
  intros [[text |] | e]; simpl; eauto.
  destruct (Js.falsy text); simpl; eauto.
Qed.

End Summaries.

Section SummaryClaims.
Import GeminiService Samples.

(** C9: [generateSummary] never throws, whatever the content and whatever
    the SDK does: it always returns a string.  When building the client
    throws, the string is the error message for the user.  For content
    that reaches the model (50 characters or more), when the call to the
    model throws, or the model gives no text or the empty text, the
    string is that error message too; a text that is not empty is
    returned as it is. *)
Theorem generateSummary_never_throws (G : Gemini) (w : state G) content c0 w1 c w2 :
  step G NewGoogleGenAI w = (c0, w1) ->
  step G (GenerateContent "gemini-2.5-flash" (promptFor content)) w1 = (c, w2) ->
  exists s,
    result G (generateSummary content) w = Returned s /\
    ((exists e, c0 = Abrupt e) ->
     s = "There was an error generating the AI summary. Please try again later.") /\
    (50 <= String.length content ->
     (exists e, c = Abrupt e) \/ c = Normal None \/ c = Normal (Some "") ->
     s = "There was an error generating the AI summary. Please try again later.") /\
    (50 <= String.length content ->
     forall text, c0 = Normal tt -> c = Normal (Some text) -> text <> "" ->
     s = text).
Proof.
  intros H1 H2.
  destruct (always_result G _ _ _ (generateSummary_returns content) w) as [s Hs].
  exists s. split; [exact Hs |]. split; [| split].
  - intros [e ->].
    destruct (generateSummary_no_client G content w e w1 H1) as [Hr _].
    rewrite Hr in Hs. injection Hs as <-. reflexivity.
  - intros Hlen Hfail. destruct c0 as [[] | e0].
    + rewrite (generateSummary_asks G content w tt w1 c w2 H1 Hlen H2) in Hs.
      injection Hs as <-.
      destruct Hfail as [[e He] | [He | He]]; subst c; reflexivity.
    + destruct (generateSummary_no_client G content w e0 w1 H1) as [Hr _].
      rewrite Hr in Hs. injection Hs as <-. reflexivity.
  - intros Hlen text -> -> Hne.
    rewrite (generateSummary_asks G content w tt w1 _ w2 H1 Hlen H2) in Hs.
    injection Hs as <-. destruct text; [contradiction | reflexivity].
Qed.

Lemma generateSummary_never_throws_witness :
  exists s,
    result (gemini (Normal tt) (Normal (Some ""))) (generateSummary longContent) 0
    = Returned s /\
    ((exists e, Normal tt = Abrupt e) ->
     s = "There was an error generating the AI summary. Please try again later.") /\
    (50 <= String.length longContent ->
     (exists e, Normal (Some "") = Abrupt e) \/
     Normal (Some "") = Normal None \/
     @Normal (option string) (Some "") = Normal (Some "") ->
     s = "There was an error generating the AI summary. Please try again later.") /\
    (50 <= String.length longContent ->
     forall text, Normal tt = Normal tt -> Normal (Some "") = Normal (Some text) ->
                  text <> "" -> s = text).
Proof.
  exact (generateSummary_never_throws (gemini (Normal tt) (Normal (Some ""))) 0
           longContent (Normal tt) 1 (Normal (Some "")) 2 eq_refl eq_refl).
Defined.

(** C10, as the code has it: for content shorter than 50 characters the
    model is never called (building the client is the only thing asked of
    the SDK).  The empty string gives the error message for the user.
    Content that is not empty gives "Content is too short to generate a
    meaningful summary." when the client was built; the client is built
    before the length is looked at, so when building it throws the same
    content gives the error message instead. *)
Theorem generateSummary_short_content (G : Gemini) (w : state G) content c0 w1 :
  step G NewGoogleGenAI w = (c0, w1) ->
  String.length content < 50 ->
  requests (trace G (generateSummary content) w) = [NewGoogleGenAI] /\
  (content = "" ->
   result G (generateSummary content) w =
   Returned "There was an error generating the AI summary. Please try again later.") /\
  (content <> "" -> c0 = Normal tt ->
   result G (generateSummary content) w =
   Returned "Content is too short to generate a meaningful summary.") /\
  (forall e, c0 = Abrupt e ->
   result G (generateSummary content) w =
   Returned "There was an error generating the AI summary. Please try again later.").
Proof.
  intros H Hlen. split; [| split; [| split]].
  - destruct c0 as [u | e].
    + destruct (Js.falsy content) eqn:E.
      * apply falsy_empty in E. subst content.
        apply (generateSummary_empty G w _ w1 H).
      * apply (generateSummary_too_short G content w u w1 H E Hlen).
    + apply (generateSummary_no_client G content w e w1 H).
  - intros ->. apply (generateSummary_empty G w _ w1 H).
  - intros Hne ->. apply (generateSummary_too_short G content w tt w1 H); [| exact Hlen].
    destruct content; [contradiction | reflexivity].
  - intros e ->. apply (generateSummary_no_client G content w e w1 H).
Qed.

Lemma generateSummary_short_content_witness :
  requests (trace (gemini (Normal tt) (Normal None)) (generateSummary "Hi there") 0)
  = [NewGoogleGenAI] /\
  ("Hi there" = "" ->
   result (gemini (Normal tt) (Normal None)) (generateSummary "Hi there") 0 =
   Returned "There was an error generating the AI summary. Please try again later.") /\
  ("Hi there" <> "" -> Normal tt = Normal tt ->
   result (gemini (Normal tt) (Normal None)) (generateSummary "Hi there") 0 =
   Returned "Content is too short to generate a meaningful summary.") /\
  (forall e, Normal tt = Abrupt e ->
   result (gemini (Normal tt) (Normal None)) (generateSummary "Hi there") 0 =
   Returned "There was an error generating the AI summary. Please try again later.").
Proof.
  refine (generateSummary_short_content (gemini (Normal tt) (Normal None)) 0
            "Hi there" (Normal tt) 1 eq_refl _).
  simpl. lia.
Defined.

(** C10 as stated fails: in the browser, where building the client
    throws, content of eight characters gives the error message and not
    the "too short" message. *)
Lemma generateSummary_short_content_without_client :
  "Hi there" <> "" /\
  String.length "Hi there" < 50 /\
  result (gemini (Abrupt noProcess) (Normal None)) (generateSummary "Hi there") 0
  <> Returned "Content is too short to generate a meaningful summary." /\
  result (gemini (Abrupt noProcess) (Normal None)) (generateSummary "Hi there") 0
  = Returned "There was an error generating the AI summary. Please try again later.".
Proof.
  split; [discriminate |]. split; [simpl; lia |]. split; [discriminate | reflexivity].
Qed.

End SummaryClaims.

(** ** Concrete runs *)

Section Runs.
Import Supabase SupabaseService Samples.

(** The listing joins by id: Ada and Bob are found, nobody has id "u9". *)
Example getPosts_healthy_run :
  result (canned healthy) getPosts 0 =
  Returned [Post.mk post3 (Some (Profile.mk "u9" "Unknown Author" None None)) None;
            Post.mk post2 (Some bob) None;
            Post.mk post1 (Some ada) None].
Proof. reflexivity. Qed.

Example getPostById_without_profiles_run :
  result (canned noProfiles) (getPostById "p1") 0 =
  Returned
    (Some (Post.mk post1 (Some (Profile.mk "u1" "Unknown" None None))
             (Some [Comment.mk comment1 (Some (Profile.mk "u2" "Unknown" None None));
                    Comment.mk comment2 (Some (Profile.mk "u9" "Unknown" None None))]))).
Proof. reflexivity. Qed.

(** A missing row and a backend that is down give the same value. *)
Example getPostById_failures_look_alike :
  result (canned missingPost) (getPostById "p404") 0 = Returned None /\
  result (canned offline) (getPostById "p404") 0 = Returned None.
Proof. split; reflexivity. Qed.

Example getPostsByAuthor_healthy_run :
  result (canned healthy) (getPostsByAuthor "u1") 0 =
  Returned [Post.mk post3 (Some ada) None;
            Post.mk post2 (Some ada) None;
            Post.mk post1 (Some ada) None].
Proof. reflexivity. Qed.

Example createPost_offline_run :
  result (canned offline) (createPost (mkNewPost "T" "C" "S" "u1")) 0
  = Thrown (Js.Error "Could not create post.") /\
  trace (canned offline) (createPost (mkNewPost "T" "C" "S" "u1")) 0
  = [Issued (InsertPost (mkNewPost "T" "C" "S" "u1"));
     Logged LogError ["Error creating post:"; "TypeError: Failed to fetch"]] /\
  final (canned offline) (createPost (mkNewPost "T" "C" "S" "u1")) 0 = 1.
Proof. repeat split. Qed.

Example createPost_without_profiles_run :
  result (canned noProfiles) (createPost (mkNewPost "Hello" "First post" "hi" "u1")) 0
  = Returned (Post.mk post1 (Some (Profile.mk "u1" "Unknown" None None)) None).
Proof. reflexivity. Qed.

Example addComment_offline_run :
  result (canned offline) (addComment (mkCommentData "p1" "u2" "Nice")) 0
  = Thrown (Js.Error "Could not add comment.").
Proof. reflexivity. Qed.

Example addComment_healthy_run :
  result (canned healthy) (addComment (mkCommentData "p1" "u2" "Nice")) 0
  = Returned (Some comment1).
Proof. reflexivity. Qed.

Example searchPosts_two_words_run :
  requests (trace (canned healthy) (searchPosts "  foo   bar ") 0) =
  [PostsTextSearch Title "foo | bar"; PostsTextSearch Content "foo | bar";
   ProfilesIn ["u1"; "u2"; "u9"]].
Proof. reflexivity. Qed.

Example searchPosts_empty_run :
  result (canned healthy) (searchPosts "") 0 = Returned [] /\
  trace (canned healthy) (searchPosts "") 0 = [].
Proof. split; reflexivity. Qed.

Example generateSummary_summary_run :
  result (gemini (GeminiService.Normal tt) (GeminiService.Normal (Some "A short summary.")))
         (GeminiService.generateSummary longContent) 0
  = Returned "A short summary.".
Proof. reflexivity. Qed.

Example generateSummary_rejected_run :
  result (gemini (GeminiService.Normal tt)
                 (GeminiService.Abrupt (Js.Error "429 Too Many Requests")))
         (GeminiService.generateSummary longContent) 0
  = Returned GeminiService.userError.
Proof. reflexivity. Qed.

End Runs.

(** * Further properties *)

(** ** Queries as text *)

Section TextFacts.
Import Text.

Lemma append_empty_r (s : string) : (s ++ "")%string = s.
Proof. induction s as [| c s IH]; simpl; [reflexivity | rewrite IH; reflexivity]. Qed.

Lemma append_assoc_string (a b c : string) :
  ((a ++ b) ++ c)%string = (a ++ (b ++ c))%string.
Proof. induction a as [| x a IH]; simpl; [reflexivity | rewrite IH; reflexivity]. Qed.

Lemma append_eq_empty (a b : string) :
  (a ++ b)%string = "" -> a = "" /\ b = "".
Proof. destruct a; simpl; [auto | discriminate]. Qed.

Lemma solid_append (a b : string) :
  solid (a ++ b) = solid a && solid b.
Proof.
  induction a as [| c a IH]; simpl; [reflexivity |].
  rewrite IH. apply andb_assoc.
Qed.

Lemma trimStart_empty s : Js.trimStart s = "" <-> blank s = true.
Proof.
  induction s as [| c s IH]; simpl.
  - tauto.
  - destruct (Js.is_space c); simpl; [exact IH |].
    split; discriminate.
Qed.

Lemma trimStart_startsSolid s : startsSolid (Js.trimStart s) = true.
Proof.
  induction s as [| c s IH]; simpl; [reflexivity |].
  destruct (Js.is_space c) eqn:E; [exact IH | simpl; rewrite E; reflexivity].
Qed.

Lemma trimEnd_empty s : Js.trimEnd s = "" <-> blank s = true.
Proof.
  induction s as [| c s IH]; simpl.
  - tauto.
  - destruct (Js.trimEnd s) eqn:E.
    + destruct (Js.is_space c); simpl.
      * split; [intros _; apply IH; reflexivity | reflexivity].
      * split; discriminate.
    + split; [discriminate |]. intros H. apply andb_true_iff in H.
      destruct H as [_ H]. apply IH in H. discriminate H.
Qed.

Lemma trimEnd_endsSolid s : endsSolid (Js.trimEnd s) = true.
Proof.
  induction s as [| c s IH]; simpl; [reflexivity |].
  destruct (Js.trimEnd s) as [| d rest] eqn:E.
  - destruct (Js.is_space c) eqn:Ec; simpl; [reflexivity | rewrite Ec; reflexivity].
  - exact IH.
Qed.

Lemma trimEnd_startsSolid s :
  startsSolid s = true -> startsSolid (Js.trimEnd s) = true.
Proof.
  destruct s as [| c s]; simpl; [reflexivity |]. intros Hc.
  destruct (Js.trimEnd s); [| exact Hc].
  destruct (Js.is_space c) eqn:E; [discriminate Hc |].
  simpl. rewrite E. reflexivity.
Qed.

Lemma startsSolid_blank s : startsSolid s = true -> blank s = true -> s = "".
Proof.
  destruct s as [| c s]; simpl; [reflexivity |].
  destruct (Js.is_space c); simpl; discriminate.
Qed.

(** [trim] leaves nothing exactly of the strings that are all white space. *)
Lemma trim_empty s : Js.trim s = "" <-> blank s = true.
Proof.
  unfold Js.trim. rewrite trimEnd_empty. split.
  - intros H. apply trimStart_empty.
    apply startsSolid_blank; [apply trimStart_startsSolid | exact H].
  - intros H. apply trimStart_empty in H. rewrite H. reflexivity.
Qed.

Lemma squeeze_trimStart s : squeeze (Js.trimStart s) = squeeze s.
Proof.
  induction s as [| c s IH]; simpl; [reflexivity |].
  destruct (Js.is_space c) eqn:E; [exact IH | simpl; rewrite E; reflexivity].
Qed.

Lemma squeeze_trimEnd s : squeeze (Js.trimEnd s) = squeeze s.
Proof.
  induction s as [| c s IH]; simpl; [reflexivity |].
  destruct (Js.trimEnd s) as [| d rest] eqn:E.
  - simpl in IH. destruct (Js.is_space c) eqn:Ec; simpl.
    + exact IH.
    + rewrite Ec, <- IH. reflexivity.
  - change (squeeze (String c (String d rest))) with
      (if Js.is_space c then squeeze (String d rest) else String c (squeeze (String d rest))).
    rewrite IH. reflexivity.
Qed.

Lemma squeeze_trim s : squeeze (Js.trim s) = squeeze s.
Proof. unfold Js.trim. rewrite squeeze_trimEnd. apply squeeze_trimStart. Qed.

(** A split always gives at least one piece. *)
Lemma split_ws_from_not_nil cur in_run s : Js.split_ws_from cur in_run s <> [].
Proof.
  revert cur in_run; induction s as [| c s IH]; intros cur in_run; simpl.
  - discriminate.
  - destruct (Js.is_space c); [destruct in_run; [apply IH | discriminate] | apply IH].
Qed.

Lemma join_cons sep p rest :
  rest <> [] -> Js.join sep (p :: rest) = (p ++ sep ++ Js.join sep rest)%string.
Proof. destruct rest; [contradiction | reflexivity]. Qed.

(** The pieces are free of white space. *)
Lemma split_ws_from_solid cur in_run s :
  solid cur = true -> Forall (fun t => solid t = true) (Js.split_ws_from cur in_run s).
Proof.
  revert cur in_run; induction s as [| c s IH]; intros cur in_run Hcur; simpl.
  - constructor; [exact Hcur | constructor].
  - destruct (Js.is_space c) eqn:E.
    + destruct in_run; [apply IH, Hcur |].
      constructor; [exact Hcur | apply IH; reflexivity].
    + apply IH. rewrite solid_append, Hcur. simpl. rewrite E. reflexivity.
Qed.

(** Put together again, the pieces are the text without its white space. *)
Lemma split_ws_from_squeeze cur in_run s :
  Js.join "" (Js.split_ws_from cur in_run s) = (cur ++ squeeze s)%string.
Proof.
  revert cur in_run; induction s as [| c s IH]; intros cur in_run; simpl.
  - symmetry. apply append_empty_r.
  - destruct (Js.is_space c) eqn:E.
    + destruct in_run; [apply IH |].
      rewrite join_cons; [| apply split_ws_from_not_nil].
      rewrite IH. reflexivity.
    + rewrite IH, append_assoc_string. reflexivity.
Qed.

(** Between a solid start and a solid end no piece is empty. *)
Lemma split_ws_from_nonempty cur in_run s :
  endsSolid s = true ->
  cur <> "" \/ (s <> "" /\ (in_run = true \/ startsSolid s = true)) ->
  Forall (fun t => t <> "") (Js.split_ws_from cur in_run s).
Proof.
  revert cur in_run; induction s as [| c s IH]; intros cur in_run Hend Hstart.
  - simpl. constructor; [| constructor].
    destruct Hstart as [H | [H _]]; [exact H | contradiction].
  - assert (Hend' : endsSolid s = true).
    { destruct s; [reflexivity | exact Hend]. }
    simpl. destruct (Js.is_space c) eqn:E.
    + assert (Hs : s <> "").
      { intros ->. simpl in Hend. rewrite E in Hend. discriminate Hend. }
      destruct in_run.
      * apply IH; [exact Hend' | right; auto].
      * constructor.
        -- destruct Hstart as [H | [_ [H | H]]]; [exact H | discriminate H |].
           simpl in H. rewrite E in H. discriminate H.
        -- apply IH; [exact Hend' | right; auto].
    + apply IH; [exact Hend' | left].
      intros H. apply append_eq_empty in H. destruct H as [_ H]. discriminate H.
Qed.

Lemma join_empty sep pieces :
  pieces <> [] -> Forall (fun t => t <> "") pieces -> Js.join sep pieces <> "".
Proof.
  intros Hne Hall. destruct pieces as [| p rest]; [contradiction |].
  inversion Hall as [| ? ? Hp _]; subst.
  destruct rest; simpl.
  - exact Hp.
  - intros H. apply append_eq_empty in H. destruct H as [H _]. exact (Hp H).
Qed.

End TextFacts.

Section FormatQuery.
Import Supabase SupabaseService Text Samples.

(** A query with a word in it never formats to the empty expression. *)
Lemma formatQuery_nonblank query : blank query = false -> formatQuery query <> "".
Proof.
  intros E. unfold formatQuery.
  apply join_empty; [apply split_ws_from_not_nil |].
  apply split_ws_from_nonempty; [apply trimEnd_endsSolid |].
  right. split.
  - intros H. apply trim_empty in H. congruence.
  - right. apply trimEnd_startsSolid, trimStart_startsSolid.
Qed.

Lemma spread_tail gws tail : (spread gws "" ++ tail)%string = spread gws tail.
Proof.
  induction gws as [| [g w0] gws IH]; simpl; [reflexivity |].
  rewrite !append_assoc_string, IH. reflexivity.
Qed.

(** What [trimStart] takes off is white space. *)
Lemma trimStart_layout s :
  exists gap, blank gap = true /\ s = (gap ++ Js.trimStart s)%string.
Proof.
  induction s as [| c s IH]; simpl.
  - exists "". split; reflexivity.
  - destruct (Js.is_space c) eqn:E.
    + destruct IH as [gap [Hgap Hs]]. exists (String c gap). simpl.
      rewrite E, Hgap, <- Hs. split; reflexivity.
    + exists "". split; reflexivity.
Qed.

(** What [trimEnd] takes off is white space. *)
Lemma trimEnd_layout s :
  exists tail, blank tail = true /\ s = (Js.trimEnd s ++ tail)%string.
Proof.
  induction s as [| c s IH]; simpl.
  - exists "". split; reflexivity.
  - destruct IH as [tail [Htail Hs]].
    destruct (Js.trimEnd s) as [| d rest] eqn:E.
    + simpl in Hs. subst tail. destruct (Js.is_space c) eqn:Ec.
      * exists (String c s). simpl. rewrite Ec, Htail. split; reflexivity.
      * exists s. split; [exact Htail | reflexivity].
    + exists tail. split; [exact Htail |]. simpl. simpl in Hs. rewrite <- Hs.
      reflexivity.
Qed.

Lemma endsSolid_tail c s : endsSolid (String c s) = true -> endsSolid s = true.
Proof. destruct s; [reflexivity | exact (fun H => H)]. Qed.

Lemma endsSolid_space c s :
  Js.is_space c = true -> endsSolid (String c s) = true -> s <> "".
Proof. intros Ec H ->. simpl in H. rewrite Ec in H. discriminate H. Qed.

(** The pieces of a split are the words of the text: read from inside a
    word ([in_run = false], the word so far being [cur]) the text is that
    word followed by gaps and words, and read from inside a gap it is the
    rest of the gap, a word, and then gaps and words. *)
Lemma split_ws_from_layout s :
  (forall cur,
     solid cur = true -> endsSolid s = true ->
     cur <> "" \/ (s <> "" /\ startsSolid s = true) ->
     exists word rest,
       Js.split_ws_from cur false s = word :: map snd rest /\
       (cur ++ s)%string = (word ++ spread rest "")%string /\
       word <> "" /\ solid word = true /\
       Forall (fun gw => blank (fst gw) = true /\ snd gw <> "" /\ solid (snd gw) = true)
              rest /\
       Forall (fun gw => fst gw <> "") rest) /\
  (endsSolid s = true -> s <> "" ->
   exists gap word rest,
     Js.split_ws_from "" true s = word :: map snd rest /\
     s = (gap ++ word ++ spread rest "")%string /\
     blank gap = true /\ word <> "" /\ solid word = true /\
     Forall (fun gw => blank (fst gw) = true /\ snd gw <> "" /\ solid (snd gw) = true)
            rest /\
     Forall (fun gw => fst gw <> "") rest).
Proof.
  induction s as [| c s [IHword IHgap]].
  - split.
    + intros cur Hcur _ [Hne | [Hs _]]; [| contradiction].
      exists cur, []. simpl. repeat split; auto.
    + intros _ Hs. contradiction.
  - split.
    + intros cur Hcur Hend Hstart. simpl. destruct (Js.is_space c) eqn:Ec.
      * assert (Hne : cur <> "").
        { destruct Hstart as [H | [_ H]]; [exact H |].
          simpl in H. rewrite Ec in H. discriminate H. }
        destruct (IHgap (endsSolid_tail _ _ Hend) (endsSolid_space _ _ Ec Hend))
          as [gap [word [rest [Hsplit [Hs [Hgap [Hw [Hsolid [Hgood Hgaps]]]]]]]]].
        exists cur, ((String c gap, word) :: rest). rewrite Hsplit. simpl.
        split; [reflexivity |]. split; [rewrite Hs; reflexivity |].
        split; [exact Hne |]. split; [exact Hcur |]. split.
        -- constructor; [| exact Hgood]. simpl. rewrite Ec, Hgap. auto.
        -- constructor; [discriminate | exact Hgaps].
      * destruct (IHword (cur ++ String c "")%string) as
            [word [rest [Hsplit [Hs [Hw [Hsolid [Hgood Hgaps]]]]]]].
        -- rewrite solid_append, Hcur. simpl. rewrite Ec. reflexivity.
        -- exact (endsSolid_tail _ _ Hend).
        -- left. intros H. apply append_eq_empty in H. destruct H as [_ H].
           discriminate H.
        -- exists word, rest. split; [exact Hsplit |].
           rewrite append_assoc_string in Hs. simpl in Hs. auto.
    + intros Hend _. simpl. destruct (Js.is_space c) eqn:Ec.
      * destruct (IHgap (endsSolid_tail _ _ Hend) (endsSolid_space _ _ Ec Hend))
          as [gap [word [rest [Hsplit [Hs [Hgap [Hw [Hsolid [Hgood Hgaps]]]]]]]]].
        exists (String c gap), word, rest. simpl. rewrite Ec, Hgap, <- Hs.
        repeat split; auto.
      * destruct (IHword (String c "")) as
            [word [rest [Hsplit [Hs [Hw [Hsolid [Hgood Hgaps]]]]]]].
        -- simpl. rewrite Ec. reflexivity.
        -- exact (endsSolid_tail _ _ Hend).
        -- left. discriminate.
        -- exists "", word, rest. simpl in Hs. simpl.
           repeat split; auto.
Qed.

(** The words [formatQuery] joins, for a query that has a word. *)
Lemma formatQuery_layout query :
  blank query = false ->
  exists gapsAndWords tail,
    query = spread gapsAndWords tail /\
    gapsAndWords <> [] /\
    Forall (fun gw => blank (fst gw) = true /\ snd gw <> "" /\ solid (snd gw) = true)
           gapsAndWords /\
    Forall (fun gw => fst gw <> "") (tl gapsAndWords) /\
    blank tail = true /\
    Js.split_ws (Js.trim query) = map snd gapsAndWords.
Proof.
  intros E.
  assert (Htrim : Js.trim query <> "").
  { intros H. apply trim_empty in H. congruence. }
  destruct (trimStart_layout query) as [lead [Hlead Hq]].
  destruct (trimEnd_layout (Js.trimStart query)) as [tail [Htail Ht]].
  fold (Js.trim query) in Ht.
  destruct (proj1 (split_ws_from_layout (Js.trim query)) "" eq_refl
              (trimEnd_endsSolid _)
              (or_intror (conj Htrim
                 (trimEnd_startsSolid _ (trimStart_startsSolid query)))))
    as [word [rest [Hsplit [Hs [Hw [Hsolid [Hgood Hgaps]]]]]]].
  simpl in Hs.
  exists ((lead, word) :: rest), tail.
  split; [| split; [discriminate | split; [| split; [| split]]]].
  - simpl. rewrite <- spread_tail.
    rewrite <- (append_assoc_string word (spread rest "") tail), <- Hs, <- Ht.
    exact Hq.
  - constructor; [simpl; auto | exact Hgood].
  - exact Hgaps.
  - exact Htail.
  - exact Hsplit.
Qed.

(** X1: [formatQuery].  A query that is all white space (or empty) gives
    the empty search expression.  Any other query gives its words joined
    by [" | "], and the words are the maximal runs of the query without
    white space: the query is laid out as white space, a word, white
    space that is not empty, a word, and so on up to a last word and
    white space, every word being non-empty and free of white space, and
    the formatted query joins exactly these words, in their order.  So
    nothing but white space is lost and nothing is added. *)
Theorem formatQuery_words (query : string) :
  if blank query then formatQuery query = ""
  else
    formatQuery query <> "" /\
    exists gapsAndWords tail,
      query = spread gapsAndWords tail /\
      gapsAndWords <> [] /\
      Forall (fun gw => blank (fst gw) = true /\ snd gw <> "" /\ solid (snd gw) = true)
             gapsAndWords /\
      Forall (fun gw => fst gw <> "") (tl gapsAndWords) /\
      blank tail = true /\
      formatQuery query = Js.join " | " (map snd gapsAndWords) /\
      Js.join "" (map snd gapsAndWords) = squeeze query.
Proof.
  destruct (blank query) eqn:E.
  - apply trim_empty in E. unfold formatQuery. rewrite E. reflexivity.
  - split; [apply formatQuery_nonblank, E |].
    destruct (formatQuery_layout query E)
      as [gws [tail [Hq [Hne [Hgood [Hgaps [Htail Hsplit]]]]]]].
    exists gws, tail.
    split; [exact Hq |]. split; [exact Hne |]. split; [exact Hgood |].
    split; [exact Hgaps |]. split; [exact Htail |]. split.
    + unfold formatQuery. rewrite Hsplit. reflexivity.
    + rewrite <- Hsplit. unfold Js.split_ws. rewrite split_ws_from_squeeze.
      apply squeeze_trim.
Qed.

End FormatQuery.

(** ** Sets of ids *)

Section SetFacts.

Lemma set_add_In x seen y : In y (Js.set_add x seen) <-> y = x \/ In y seen.
Proof.
  unfold Js.set_add. destruct (existsb (String.eqb x) seen) eqn:E.
  - apply existsb_eqb_In in E. split; [auto | intros [-> | H]; assumption].
  - rewrite in_app_iff. simpl. split.
    + intros [H | [H | []]]; auto.
    + intros [-> | H]; auto.
Qed.

Lemma set_add_NoDup x seen : NoDup seen -> NoDup (Js.set_add x seen).
Proof.
  intros Hnd. unfold Js.set_add.
  destruct (existsb (String.eqb x) seen) eqn:E; [exact Hnd |].
  apply NoDup_app; [exact Hnd | repeat constructor; intros [] |].
  intros y Hy [<- | []]. apply existsb_eqb_In in Hy. congruence.
Qed.

Lemma set_from_In xs seen y :
  In y (fold_left (fun seen x => Js.set_add x seen) xs seen) <-> In y xs \/ In y seen.
Proof.
  revert seen; induction xs as [| x xs IH]; intros seen; simpl.
  - tauto.
  - rewrite IH, set_add_In. intuition auto.
Qed.

Lemma set_from_NoDup xs seen :
  NoDup seen -> NoDup (fold_left (fun seen x => Js.set_add x seen) xs seen).
Proof.
  revert seen; induction xs as [| x xs IH]; intros seen H; simpl.
  - exact H.
  - apply IH, set_add_NoDup, H.
Qed.

(** A set keeps every element of the list, once. *)
Lemma set_to_array_In xs y : In y (Js.set_to_array xs) <-> In y xs.
Proof. unfold Js.set_to_array. rewrite set_from_In. simpl. tauto. Qed.

Lemma set_to_array_NoDup xs : NoDup (Js.set_to_array xs).
Proof. apply set_from_NoDup. constructor. Qed.

(** What is in the set already stays in front, in its order. *)
Lemma set_from_prefix xs seen :
  exists rest, fold_left (fun seen x => Js.set_add x seen) xs seen = seen ++ rest.
Proof.
  revert seen; induction xs as [| x xs IH]; intros seen; simpl.
  - exists []. symmetry. apply app_nil_r.
  - destruct (IH (Js.set_add x seen)) as [rest ->]. unfold Js.set_add.
    destruct (existsb (String.eqb x) seen).
    + exists rest. reflexivity.
    + exists (x :: rest). rewrite <- app_assoc. reflexivity.
Qed.

Lemma set_from_app xs ys seen :
  fold_left (fun seen x => Js.set_add x seen) (xs ++ ys) seen =
  fold_left (fun seen x => Js.set_add x seen) ys
            (fold_left (fun seen x => Js.set_add x seen) xs seen).
Proof. apply fold_left_app. Qed.

(** Distinct elements added to a set that has none of them go last, in
    their order. *)
Lemma set_from_fresh xs seen :
  NoDup xs -> (forall x, In x xs -> ~ In x seen) ->
  fold_left (fun seen x => Js.set_add x seen) xs seen = seen ++ xs.
Proof.
  revert seen; induction xs as [| x xs IH]; intros seen Hnd Hfresh; simpl.
  - symmetry. apply app_nil_r.
  - inversion Hnd as [| ? ? Hx Hnd']; subst.
    assert (E : existsb (String.eqb x) seen = false).
    { destruct (existsb (String.eqb x) seen) eqn:E; [| reflexivity].
      apply existsb_eqb_In in E. exfalso. exact (Hfresh x (or_introl eq_refl) E). }
    unfold Js.set_add at 2. rewrite E. rewrite IH; [rewrite <- app_assoc; reflexivity | exact Hnd' |].
    intros y Hy Hin. apply in_app_iff in Hin. destruct Hin as [Hin | [<- | []]].
    + exact (Hfresh y (or_intror Hy) Hin).
    + exact (Hx Hy).
Qed.

Lemma set_to_array_NoDup_id xs : NoDup xs -> Js.set_to_array xs = xs.
Proof.
  intros H. unfold Js.set_to_array. rewrite set_from_fresh; [reflexivity | exact H |].
  intros x _ [].
Qed.

(** The keys of a map are the set of the keys of its entries. *)
Lemma keys_setAll V (entries : list (string * V)) (m : JsMap.t V) :
  JsMap.keys (JsMap.setAll entries m) =
  fold_left (fun seen x => Js.set_add x seen) (map fst entries) (JsMap.keys m).
Proof.
  revert m; induction entries as [| e es IH]; intros m; simpl.
  - reflexivity.
  - rewrite IH, keys_set. reflexivity.
Qed.

End SetFacts.

(** ** More on the content access layer *)

Section JoinFacts.
Import Supabase SupabaseService Hydration.

(** The map of the profiles holds each profile under its own id. *)
Lemma byId_only_own profiles k v :
  JsMap.get (byId profiles) k = Some v -> Profile.id v = k.
Proof. intros H. apply (byId_Some profiles k v H). Qed.

Lemma author_of_join m row :
  (forall k v, JsMap.get m k = Some v -> Profile.id v = k) ->
  exists a, Post.author (withAuthorFrom m row) = Some a /\
            Profile.id a = PostRow.author_id (Post.row (withAuthorFrom m row)).
Proof.
  intros Hm. unfold withAuthorFrom. simpl.
  destruct (JsMap.get m (PostRow.author_id row)) as [a |] eqn:E; simpl.
  - exists a. split; [reflexivity | apply Hm, E].
  - eexists. split; reflexivity.
Qed.

Lemma user_of_join m row :
  (forall k v, JsMap.get m k = Some v -> Profile.id v = k) ->
  exists u, Comment.user (withUserFrom m row) = Some u /\
            Profile.id u = CommentRow.user_id (Comment.row (withUserFrom m row)).
Proof.
  intros Hm. unfold withUserFrom. simpl.
  destruct (JsMap.get m (CommentRow.user_id row)) as [u |] eqn:E; simpl.
  - exists u. split; [reflexivity | apply Hm, E].
  - eexists. split; reflexivity.
Qed.

End JoinFacts.

Section Requests.
Import Supabase SupabaseService Hydration Samples.

#[local] Arguments mergeById : simpl never.

(** The outcome and the requests of a search, for any query. *)
Lemma searchPosts_shape (B : Backend) (w : state B) query :
  if Js.falsy query then
    result B (searchPosts query) w = Returned [] /\
    trace B (searchPosts query) w = []
  else
    exists posts,
      result B (searchPosts query) w = Returned posts /\
      requests (trace B (searchPosts query) w) =
      PostsTextSearch Title (formatQuery query)
        :: PostsTextSearch Content (formatQuery query)
        :: match posts with
           | [] => []
           | _ :: _ => [ProfilesIn (authorIdsOf (map Post.row posts))]
           end.
Proof.
  unfold searchPosts. destruct (Js.falsy query); [split; reflexivity |].
  simpl.
  destruct (step B (PostsTextSearch Title (formatQuery query)) w) as [tr w1].
  destruct (step B (PostsTextSearch Content (formatQuery query)) w1) as [cr w2].
  assert (Hgo : forall merged,
    exists posts,
      result B
        (if Nat.eqb (length merged) 0 then Ret []
         else
           pr <- await (ProfilesIn (authorIdsOf merged)) ;;
           match error pr with
           | Some profilesError =>
               console_warn ["Error fetching author profiles for search results:";
                             message profilesError] ;;;
               Ret (map withUnknownAuthor merged)
           | None =>
               profilesData <- deref (data pr) ;;
               Ret (map (withAuthorFrom (byId profilesData)) merged)
           end) w2 = Returned posts /\
      requests (trace B
        (if Nat.eqb (length merged) 0 then Ret []
         else
           pr <- await (ProfilesIn (authorIdsOf merged)) ;;
           match error pr with
           | Some profilesError =>
               console_warn ["Error fetching author profiles for search results:";
                             message profilesError] ;;;
               Ret (map withUnknownAuthor merged)
           | None =>
               profilesData <- deref (data pr) ;;
               Ret (map (withAuthorFrom (byId profilesData)) merged)
           end) w2) =
      match posts with
      | [] => []
      | _ :: _ => [ProfilesIn (authorIdsOf (map Post.row posts))]
      end).
  { intros [| row merged]; simpl.
    - exists []. split; reflexivity.
    - destruct (step B (ProfilesIn (authorIdsOf (row :: merged))) w2)
        as [[profiles | e] w3]; simpl; eexists; (split; [reflexivity |]); simpl.
      + rewrite row_withAuthorFrom. reflexivity.
      + rewrite row_withUnknownAuthor. reflexivity. }
  destruct tr as [titleRows | e1], cr as [contentRows | e2]; simpl;
    [ destruct (Hgo (mergeById titleRows contentRows)) as [posts [Hres Hreq]]
    | destruct (Hgo (mergeById titleRows [])) as [posts [Hres Hreq]]
    | destruct (Hgo (mergeById [] contentRows)) as [posts [Hres Hreq]]
    | destruct (Hgo (mergeById [] [])) as [posts [Hres Hreq]] ];
    exists posts; (split; [exact Hres | do 2 f_equal; exact Hreq]).
Qed.

(** X2: the requests of a search.  The empty query asks nothing.  Any
    other query is sent as the two text searches, title first, both with
    the formatted query; the one profile lookup follows only when there
    are hits, and it asks for the authors of the posts that are returned. *)
Theorem searchPosts_requests (B : Backend) (w : state B) query :
  if Js.falsy query then
    result B (searchPosts query) w = Returned [] /\
    trace B (searchPosts query) w = []
  else
    exists posts,
      result B (searchPosts query) w = Returned posts /\
      requests (trace B (searchPosts query) w) =
      PostsTextSearch Title (formatQuery query)
        :: PostsTextSearch Content (formatQuery query)
        :: match posts with
           | [] => []
           | _ :: _ => [ProfilesIn (authorIdsOf (map Post.row posts))]
           end.
Proof.
  pose proof (searchPosts_shape B w query) as H.
  destruct (Js.falsy query); exact H.
Qed.

(** X3: the requests of the listing.  With no post there is no profile
    lookup.  Otherwise there is exactly one, and the ids it asks for are
    the author ids of the posts, each of them once, however many posts an
    author has. *)
Theorem getPosts_requests (B : Backend) (w : state B) rows w1 :
  step B PostsNewestFirst w = (Success rows, w1) ->
  match rows with
  | [] => requests (trace B getPosts w) = [PostsNewestFirst]
  | _ :: _ =>
      exists ids,
        requests (trace B getPosts w) = [PostsNewestFirst; ProfilesIn ids] /\
        NoDup ids /\
        (forall id, In id ids <-> exists post, In post rows /\ PostRow.author_id post = id)
  end.
Proof.
  intros H. unfold getPosts. simpl. rewrite H. simpl.
  destruct rows as [| row rows]; [reflexivity |].
  destruct (Nat.eqb (length (authorIdsOf (row :: rows))) 0) eqn:E.
  - apply authorIdsOf_empty in E. discriminate E.
  - exists (authorIdsOf (row :: rows)). split; [| split].
    + simpl. destruct (step B (ProfilesIn (authorIdsOf (row :: rows))) w1)
        as [[profiles | e] w2]; reflexivity.
    + apply set_to_array_NoDup.
    + intros id. unfold authorIdsOf. rewrite set_to_array_In, in_map_iff.
      split; intros [post [H1 H2]]; exists post; auto.
Qed.

Lemma getPosts_requests_witness :
  exists ids,
    requests (trace (canned healthy) getPosts 0) = [PostsNewestFirst; ProfilesIn ids] /\
    NoDup ids /\
    (forall id, In id ids <->
       exists post, In post [post3; post2; post1] /\ PostRow.author_id post = id).
Proof.
  exact (getPosts_requests (canned healthy) 0 [post3; post2; post1] 1 eq_refl).
Defined.

(** X4: a join never attaches somebody else's profile.  The author of
    every post of the listing and of a search has the id the post names
    as its author, and the user of every comment of [getPostById] has the
    id the comment names as its user, whether the profile came from the
    backend or is the placeholder. *)
Theorem joined_profiles_match (B : Backend) (w : state B) :
  returns (Forall (fun p => exists a, Post.author p = Some a /\
                                      Profile.id a = PostRow.author_id (Post.row p)))
          (result B getPosts w) /\
  (forall query,
     returns (Forall (fun p => exists a, Post.author p = Some a /\
                                         Profile.id a = PostRow.author_id (Post.row p)))
             (result B (searchPosts query) w)) /\
  (forall id,
     returns (fun found =>
                forall p cs, found = Some p -> Post.comments p = Some cs ->
                  Forall (fun c => exists u, Comment.user c = Some u /\
                                             Profile.id u = CommentRow.user_id (Comment.row c))
                         cs)
             (result B (getPostById id) w)).
Proof.
  split; [| split].
  - apply (always_result B). unfold getPosts. answer_cases; try constructor;
      apply Forall_map, Forall_forall; intros row _;
      first [ eexists; split; reflexivity
            | apply author_of_join, byId_only_own ].
  - intros query. apply (always_result B). unfold searchPosts.
    answer_cases; try constructor;
      apply Forall_map, Forall_forall; intros row _;
      first [ eexists; split; reflexivity
            | apply author_of_join, byId_only_own ].
  - intros id. apply (always_result B). unfold getPostById.
    answer_cases; try discriminate;
      intros p cs [= <-]; simpl; intros [= <-];
      try constructor;
      apply Forall_map, Forall_forall; intros row _;
      apply user_of_join;
      first [ apply byId_only_own | intros k v H; discriminate H ].
Qed.

End Requests.

Section Bounds.
Import Supabase SupabaseService Hydration Observe Samples.

Lemma callsAtMost_requests Req Ans (S : Service Req Ans) A n (p : Prog Req Ans A) :
  callsAtMost n p -> forall w, length (requests (trace S p w)) <= n.
Proof.
  revert n; induction p as [a | e | lvl args k IH | q k IH]; intros n H w; simpl.
  - lia.
  - lia.
  - apply IH, H.
  - destruct n as [| n]; [contradiction |].
    destruct (step S q w) as [a w']. simpl.
    apply le_n_S, IH, H.
Qed.

(** X5: no operation asks the backend once per row.  Whatever the
    backend answers and however many rows it returns, the listing issues
    at most 2 requests, [getPostById] at most 4, [getPostsByAuthor] at most
    2, a search at most 3, [createPost] at most 2 and [addComment] exactly
    1; nothing is ever asked twice over after a failure. *)
Theorem requests_are_bounded (B : Backend) (w : state B) :
  length (requests (trace B getPosts w)) <= 2 /\
  (forall id, length (requests (trace B (getPostById id) w)) <= 4) /\
  (forall authorId, length (requests (trace B (getPostsByAuthor authorId) w)) <= 2) /\
  (forall query, length (requests (trace B (searchPosts query) w)) <= 3) /\
  (forall postData, length (requests (trace B (createPost postData) w)) <= 2) /\
  (forall commentData, length (requests (trace B (addComment commentData) w)) = 1).
Proof.
  repeat split.
  - apply callsAtMost_requests. unfold getPosts. few_calls.
  - intros id. apply callsAtMost_requests. unfold getPostById. few_calls.
  - intros authorId. apply callsAtMost_requests. unfold getPostsByAuthor. few_calls.
  - intros query. apply callsAtMost_requests. unfold searchPosts. few_calls.
  - intros postData. apply callsAtMost_requests. unfold createPost. few_calls.
  - intros commentData. unfold addComment. simpl.
    destruct (step B _ w) as [[row | e] w1]; reflexivity.
Qed.

Lemma loggedAs_run (B : Backend) A (p : CAL A) :
  forall fails logs, loggedAs fails logs p ->
  forall w, logs ++ loggedCauses (trace B p w) = fails ++ failureCauses B p w.
Proof.
  induction p as [a | e | lvl args k IH | q k IH]; intros fails logs H w; simpl in *.
  - rewrite !app_nil_r. symmetry. exact H.
  - rewrite !app_nil_r. symmetry. exact H.
  - specialize (IH _ _ H w). rewrite <- IH, <- app_assoc. reflexivity.
  - destruct (step B q w) as [a w']. specialize (IH a _ _ (H a) w').
    unfold loggedCauses in *. simpl.
    destruct (errorOf q a) as [err |]; [rewrite <- app_assoc in IH |]; exact IH.
Qed.

(** X9: no failure is swallowed in silence and nothing else is printed.
    In every run of every operation the console lines are, one for one
    and in the same order, the failed requests of the run, and each line
    ends with the message of the failure. *)
Theorem failures_are_logged (B : Backend) (w : state B) :
  loggedCauses (trace B getPosts w) = failureCauses B getPosts w /\
  (forall id, loggedCauses (trace B (getPostById id) w)
              = failureCauses B (getPostById id) w) /\
  (forall authorId, loggedCauses (trace B (getPostsByAuthor authorId) w)
                    = failureCauses B (getPostsByAuthor authorId) w) /\
  (forall query, loggedCauses (trace B (searchPosts query) w)
                 = failureCauses B (searchPosts query) w) /\
  (forall postData, loggedCauses (trace B (createPost postData) w)
                    = failureCauses B (createPost postData) w) /\
  (forall commentData, loggedCauses (trace B (addComment commentData) w)
                       = failureCauses B (addComment commentData) w).
Proof.
  repeat split; intros;
    match goal with
    | |- loggedCauses (trace B ?p w) = _ =>
        apply (loggedAs_run B _ p [] [])
    end.
  - unfold getPosts. all_logged.
  - unfold getPostById. all_logged.
  - unfold getPostsByAuthor. all_logged.
  - unfold searchPosts. all_logged.
  - unfold createPost. all_logged.
  - unfold addComment. all_logged.
Qed.

End Bounds.

Section MoreRuns.
Import Supabase SupabaseService Hydration Samples.

(** X6: the requests of [getPostById] for a post that is found and whose
    comments arrive.  The author is looked up by the author id of the row,
    the comments by the id asked for; a post without comments costs no
    further request and comes back with the empty list, a post with
    comments costs exactly one more, for the distinct user ids of its
    comments. *)
Theorem getPostById_requests_found (B : Backend) (w : state B) id row w1 ar w2 rows w3 :
  step B (PostById id) w = (Success row, w1) ->
  step B (ProfileById (PostRow.author_id row)) w1 = (ar, w2) ->
  step B (CommentsOldestFirst id) w2 = (Success rows, w3) ->
  match rows with
  | [] =>
      requests (trace B (getPostById id) w) =
      [PostById id; ProfileById (PostRow.author_id row); CommentsOldestFirst id] /\
      exists p, result B (getPostById id) w = Returned (Some p) /\
                Post.comments p = Some []
  | _ :: _ =>
      exists ids,
        requests (trace B (getPostById id) w) =
        [PostById id; ProfileById (PostRow.author_id row); CommentsOldestFirst id;
         ProfilesIn ids] /\
        NoDup ids /\
        (forall u, In u ids <->
           exists comment, In comment rows /\ CommentRow.user_id comment = u)
  end.
Proof.
  intros H1 H2 H3. destruct rows as [| comment rows].
  - split.
    + unfold getPostById. simpl. rewrite H1. simpl. rewrite H2.
      destruct ar; simpl; rewrite H3; reflexivity.
    + destruct (step B (ProfilesIn (userIdsOf [])) w3) as [ur w4] eqn:H4.
      eexists. split; [apply (getPostById_found B _ _ _ _ _ _ _ _ _ _ H1 H2 H3 H4) |].
      reflexivity.
  - exists (userIdsOf (comment :: rows)). split; [| split].
    + destruct (Nat.ltb 0 (length (userIdsOf (comment :: rows)))) eqn:E.
      * unfold getPostById. simpl. rewrite H1. simpl. rewrite H2.
        destruct ar; simpl; rewrite H3; simpl; rewrite E; simpl;
          destruct (step B (ProfilesIn (userIdsOf (comment :: rows))) w3)
            as [[users | e] w4]; reflexivity.
      * apply userIdsOf_empty in E. discriminate E.
    + apply set_to_array_NoDup.
    + intros u. unfold userIdsOf. rewrite set_to_array_In, in_map_iff.
      split; intros [c [Hc1 Hc2]]; exists c; auto.
Qed.

Lemma getPostById_requests_found_witness :
  exists ids,
    requests (trace (canned healthy) (getPostById "p1") 0) =
    [PostById "p1"; ProfileById "u1"; CommentsOldestFirst "p1"; ProfilesIn ids] /\
    NoDup ids /\
    (forall u, In u ids <->
       exists comment, In comment [comment1; comment2] /\ CommentRow.user_id comment = u).
Proof.
  exact (getPostById_requests_found (canned healthy) 0 "p1" post1 1 (Success ada) 2
           [comment1; comment2] 3 eq_refl eq_refl eq_refl).
Defined.

(** Entries with distinct keys that the map does not have yet go last,
    in their order. *)
Lemma setAll_fresh V (entries : list (string * V)) (m : JsMap.t V) :
  NoDup (map fst entries) ->
  (forall k, In k (map fst entries) -> ~ In k (JsMap.keys m)) ->
  JsMap.setAll entries m = m ++ entries.
Proof.
  revert m; induction entries as [| [k v] es IH]; intros m Hnd Hfresh; simpl.
  - symmetry. apply app_nil_r.
  - inversion Hnd as [| ? ? Hk Hnd']; subst.
    assert (Hset : JsMap.set k v m = m ++ [(k, v)]).
    { clear IH Hnd Hnd' Hk. assert (Hm : ~ In k (JsMap.keys m)).
      { apply Hfresh. left. reflexivity. }
      clear Hfresh. induction m as [| [k' v'] m IHm]; simpl; [reflexivity |].
      destruct (String.eqb_spec k' k) as [-> | Hne].
      - exfalso. apply Hm. left. reflexivity.
      - rewrite IHm; [reflexivity |]. intros Hin. apply Hm. right. exact Hin. }
    unfold JsMap.setAll in *. simpl. fold (JsMap.setAll es (JsMap.set k v m)).
    unfold JsMap.setAll. rewrite Hset, IH; [rewrite <- app_assoc; reflexivity | exact Hnd' |].
    intros k0 Hk0 Hin. unfold JsMap.keys in Hin. rewrite map_app, in_app_iff in Hin.
    destruct Hin as [Hin | [<- | []]].
    + exact (Hfresh k0 (or_intror Hk0) Hin).
    + exact (Hk Hk0).
Qed.

(** Rows with distinct ids merge into themselves. *)
Lemma mergeById_distinct rows :
  NoDup (map PostRow.id rows) -> mergeById [] rows = rows /\ mergeById rows [] = rows.
Proof.
  intros Hnd.
  assert (H : mergeById [] rows = rows).
  { unfold mergeById, JsMap.of_entries. simpl.
    rewrite setAll_fresh.
    - unfold JsMap.values. simpl. rewrite map_map. simpl. apply map_id.
    - rewrite map_map. simpl. exact Hnd.
    - intros k _ []. }
  split; [exact H |]. unfold mergeById in *. rewrite app_nil_r. exact H.
Qed.

(** X7: one failed text search does not lose the hits of the other.
    With rows of distinct ids (the id is the key of the table), when the
    title search fails the posts returned are the rows of the content
    search, in their order, when the content search fails they are the
    rows of the title search, and when both fail the result is empty. *)
Theorem searchPosts_survives_one_failure (B : Backend) (w : state B) query tr w1 cr w2 :
  Js.falsy query = false ->
  step B (PostsTextSearch Title (formatQuery query)) w = (tr, w1) ->
  step B (PostsTextSearch Content (formatQuery query)) w1 = (cr, w2) ->
  NoDup (map PostRow.id (rowsOf tr)) ->
  NoDup (map PostRow.id (rowsOf cr)) ->
  exists posts,
    result B (searchPosts query) w = Returned posts /\
    (forall e, tr = Failure e -> map Post.row posts = rowsOf cr) /\
    (forall e, cr = Failure e -> map Post.row posts = rowsOf tr) /\
    (forall e1 e2, tr = Failure e1 -> cr = Failure e2 -> posts = []).
Proof.
  intros Hq H1 H2 Hnd1 Hnd2.
  destruct (step B (ProfilesIn (authorIdsOf (mergeById (rowsOf tr) (rowsOf cr)))) w2)
    as [pr w3] eqn:H3.
  eexists. split; [apply (searchPosts_run B query w tr w1 cr w2 pr w3 Hq H1 H2 H3) |].
  assert (Hrows :
    map Post.row
      match pr with
      | Failure _ => map withUnknownAuthor (mergeById (rowsOf tr) (rowsOf cr))
      | Success profiles =>
          map (withAuthorFrom (byId profiles)) (mergeById (rowsOf tr) (rowsOf cr))
      end = mergeById (rowsOf tr) (rowsOf cr)).
  { destruct pr; [apply row_withAuthorFrom | apply row_withUnknownAuthor]. }
  split; [| split].
  - intros e ->. rewrite Hrows. apply (mergeById_distinct _ Hnd2).
  - intros e ->. rewrite Hrows. apply (mergeById_distinct _ Hnd1).
  - intros e1 e2 -> ->. destruct pr; reflexivity.
Qed.

Lemma searchPosts_survives_one_failure_witness :
  exists posts,
    result (canned (mkCanned (Success []) (Failure down) (Failure down) (Success [ada])
                             (Failure down) (Failure down) (Success [post1; post3])
                             (Failure down) (Failure down)))
           (searchPosts "post") 0 = Returned posts /\
    (forall e, @Failure (list PostRow.t) down = Failure e ->
               map Post.row posts = [post1; post3]) /\
    (forall e, Success [post1; post3] = Failure e -> map Post.row posts = []) /\
    (forall e1 e2, @Failure (list PostRow.t) down = Failure e1 ->
                   Success [post1; post3] = Failure e2 -> posts = []).
Proof.
  refine (searchPosts_survives_one_failure
            (canned (mkCanned (Success []) (Failure down) (Failure down) (Success [ada])
                              (Failure down) (Failure down) (Success [post1; post3])
                              (Failure down) (Failure down)))
            0 "post" (Failure down) 1 (Success [post1; post3]) 2
            eq_refl eq_refl eq_refl _ _).
  - constructor.
  - simpl. repeat constructor; simpl; intuition discriminate.
Defined.

(** Distinct elements added to a set: the new ones go last, in their
    order. *)
Lemma set_from_filter ks seen :
  NoDup ks ->
  fold_left (fun seen x => Js.set_add x seen) ks seen =
  seen ++ filter (fun k => negb (existsb (String.eqb k) seen)) ks.
Proof.
  revert seen; induction ks as [| k ks IH]; intros seen Hnd; simpl.
  - symmetry. apply app_nil_r.
  - inversion Hnd as [| ? ? Hk Hnd']; subst. unfold Js.set_add at 2.
    destruct (existsb (String.eqb k) seen) eqn:E; simpl.
    + apply IH, Hnd'.
    + rewrite IH; [| exact Hnd']. rewrite <- app_assoc. simpl. f_equal. f_equal.
      apply filter_ext_in. intros x Hx. rewrite existsb_app. simpl.
      destruct (String.eqb_spec x k) as [-> | Hne]; [contradiction |].
      rewrite orb_false_r. reflexivity.
Qed.

(** X8: the order of a search result.  With distinct ids within each
    result set, the title hits come first, in the order the title search
    gave them, and after them the posts only the content search found, in
    the order the content search gave them. *)
Theorem mergeById_order titleRows contentRows :
  NoDup (map PostRow.id titleRows) ->
  NoDup (map PostRow.id contentRows) ->
  map PostRow.id (mergeById titleRows contentRows) =
  map PostRow.id titleRows ++
  filter (fun k => negb (existsb (String.eqb k) (map PostRow.id titleRows)))
         (map PostRow.id contentRows).
Proof.
  intros Hnd1 Hnd2. rewrite mergeById_ids. unfold JsMap.of_entries.
  rewrite keys_setAll.
  assert (Hkeys : map fst (map entryOf (titleRows ++ contentRows)) =
                  map PostRow.id titleRows ++ map PostRow.id contentRows).
  { rewrite map_map, map_app. reflexivity. }
  rewrite Hkeys, set_from_app. simpl.
  fold (Js.set_to_array (map PostRow.id titleRows)).
  rewrite (set_to_array_NoDup_id _ Hnd1).
  apply set_from_filter, Hnd2.
Qed.

Lemma mergeById_order_witness :
  map PostRow.id (mergeById [post1; post2] [post1'; post3]) =
  map PostRow.id [post1; post2] ++
  filter (fun k => negb (existsb (String.eqb k) (map PostRow.id [post1; post2])))
         (map PostRow.id [post1'; post3]).
Proof.
  refine (mergeById_order [post1; post2] [post1'; post3] _ _);
    simpl; repeat constructor; simpl; intuition discriminate.
Defined.

(** X10: a created post is returned as the backend inserted it.  After a
    successful insert [createPost] looks up the profile of the author of
    the inserted row, and returns that row whatever the lookup answers:
    with the profile when it is found, with the placeholder "Unknown"
    when it is not. *)
Theorem createPost_returns_inserted_row (B : Backend) (w : state B) postData row w1 pr w2 :
  step B (InsertPost postData) w = (Success row, w1) ->
  step B (FullProfileById (PostRow.author_id row)) w1 = (pr, w2) ->
  exists p,
    result B (createPost postData) w = Returned p /\
    Post.row p = row /\
    requests (trace B (createPost postData) w) =
    [InsertPost postData; FullProfileById (PostRow.author_id row)] /\
    (forall profile, pr = Success profile -> Post.author p = Some profile) /\
    (forall e, pr = Failure e -> unknownAuthor "Unknown" p).
Proof.
  intros H1 H2. eexists.
  split; [apply (createPost_inserted B _ _ _ _ _ _ H1 H2) |].
  split; [reflexivity |]. split.
  - unfold createPost. simpl. rewrite H1. simpl. rewrite H2. destruct pr; reflexivity.
  - split; [intros profile -> | intros e ->]; reflexivity.
Qed.

Lemma createPost_returns_inserted_row_witness :
  exists p,
    result (canned healthy) (createPost (mkNewPost "Hello" "First post" "hi" "u1")) 0
    = Returned p /\
    Post.row p = post1 /\
    requests (trace (canned healthy) (createPost (mkNewPost "Hello" "First post" "hi" "u1")) 0)
    = [InsertPost (mkNewPost "Hello" "First post" "hi" "u1"); FullProfileById "u1"] /\
    (forall profile, Success ada = Success profile -> Post.author p = Some profile) /\
    (forall e, Success ada = Failure e -> unknownAuthor "Unknown" p).
Proof.
  exact (createPost_returns_inserted_row (canned healthy) 0
           (mkNewPost "Hello" "First post" "hi" "u1") post1 1 (Success ada) 2
           eq_refl eq_refl).
Defined.

End MoreRuns.

(** ** More on the summary service *)

Section MoreSummaries.
Import GeminiService Samples.

(** Whatever the SDK answers, the outcome is a string that is not empty. *)
Lemma generateSummary_some_text content :
  always (fun o => exists s, o = Returned s /\ s <> "") (generateSummary content).
Proof.
  unfold generateSummary. simpl. intros [[] | e]; simpl.
  - destruct (Js.falsy content); simpl.
    + eexists. split; [reflexivity | discriminate].
    + destruct (Nat.ltb (String.length content) 50); simpl.
      * eexists. split; [reflexivity | discriminate].
      * intros [[text |] | e]; simpl;
          try (eexists; split; [reflexivity | discriminate]).
        destruct (Js.falsy text) eqn:E; simpl.
        -- eexists. split; [reflexivity | discriminate].
        -- exists text. split; [reflexivity |].
           intros ->. discriminate E.
  - eexists. split; [reflexivity | discriminate].
Qed.

(** X11: [generateSummary] never returns the empty string: the editor
    always gets a summary, one of the two fixed messages or a text of the
    model that is not empty. *)
Theorem generateSummary_is_never_empty (G : Gemini) (w : state G) content :
  exists s, result G (generateSummary content) w = Returned s /\ s <> "".
Proof.
  exact (always_result G _ (fun o => exists s, o = Returned s /\ s <> "") _
           (generateSummary_some_text content) w).
Qed.

(** X12: the model is called at most once and never retried.  Building
    the client is always the first thing asked of the SDK; the model is
    then called exactly when the client was built and the content has 50
    characters or more, once, as "gemini-2.5-flash", with the prompt made
    from that content. *)
Theorem generateSummary_calls_the_model_once (G : Gemini) (w : state G) content c0 w1 :
  step G NewGoogleGenAI w = (c0, w1) ->
  requests (trace G (generateSummary content) w) =
  NewGoogleGenAI ::
  match c0 with
  | Normal _ =>
      if Nat.leb 50 (String.length content)
      then [GenerateContent "gemini-2.5-flash" (promptFor content)]
      else []
  | Abrupt _ => []
  end.
Proof.
  intros H.
  assert (Hlt : Nat.ltb (String.length content) 50
                = negb (Nat.leb 50 (String.length content))).
  { destruct (Nat.leb_spec 50 (String.length content));
      [apply Nat.ltb_ge | apply Nat.ltb_lt]; assumption. }
  destruct (Nat.leb 50 (String.length content)) eqn:El; simpl in Hlt;
    unfold generateSummary; simpl; rewrite H; destruct c0 as [u | e]; simpl;
    try reflexivity.
  - assert (Ef : Js.falsy content = false).
    { destruct content; [discriminate El | reflexivity]. }
    rewrite Ef, Hlt. simpl.
    destruct (step G (GenerateContent "gemini-2.5-flash" (promptFor content)) w1)
      as [[[text |] | e] w2]; simpl; try reflexivity.
    destruct (Js.falsy text); reflexivity.
  - destruct (Js.falsy content); simpl; [reflexivity |]. rewrite Hlt. reflexivity.
Qed.

Lemma generateSummary_calls_the_model_once_witness :
  requests (trace (gemini (Normal tt) (Normal (Some "A short summary.")))
                  (generateSummary longContent) 0) =
  NewGoogleGenAI ::
  (if Nat.leb 50 (String.length longContent)
   then [GenerateContent "gemini-2.5-flash" (promptFor longContent)]
   else []).
Proof.
  exact (generateSummary_calls_the_model_once
           (gemini (Normal tt) (Normal (Some "A short summary."))) 0 longContent
           (Normal tt) 1 eq_refl).
Defined.

End MoreSummaries.

(** ** Handlers in the browser *)

Section BrowserFacts.
Import Supabase SupabaseService App.

Variable S : Browser.

Lemma result_liftDb A (p : CAL A) w : result S (liftDb p) w = result (dbOf S) p w.
Proof.
  revert w; induction p as [a | e | lvl args k IH | q k IH]; intros w; simpl;
    try reflexivity; [apply IH |].
  destruct (step S (Db q) w) as [a w']. apply IH.
Qed.

Lemma final_liftDb A (p : CAL A) w : final S (liftDb p) w = final (dbOf S) p w.
Proof.
  revert w; induction p as [a | e | lvl args k IH | q k IH]; intros w; simpl;
    try reflexivity; [apply IH |].
  destruct (step S (Db q) w) as [a w']. apply IH.
Qed.

Lemma uiEvents_liftDb A (p : CAL A) w : uiEvents (trace S (liftDb p) w) = [].
Proof.
  revert w; induction p as [a | e | lvl args k IH | q k IH]; intros w; simpl;
    try reflexivity; [apply IH |].
  destruct (step S (Db q) w) as [a w']. simpl. apply IH.
Qed.

Lemma dbRequests_liftDb A (p : CAL A) w :
  dbRequests (trace S (liftDb p) w) = requests (trace (dbOf S) p w).
Proof.
  revert w; induction p as [a | e | lvl args k IH | q k IH]; intros w; simpl;
    try reflexivity; [apply IH |].
  destruct (step S (Db q) w) as [a w']. simpl. f_equal. apply IH.
Qed.

Lemma aiRequests_liftDb A (p : CAL A) w : aiRequests (trace S (liftDb p) w) = [].
Proof.
  revert w; induction p as [a | e | lvl args k IH | q k IH]; intros w; simpl;
    try reflexivity; [apply IH |].
  destruct (step S (Db q) w) as [a w']. simpl. apply IH.
Qed.

Lemma result_liftAi A (p : Prog GeminiService.Request GeminiService.Answer A) w :
  result S (liftAi p) w = result (aiOf S) p w.
Proof.
  revert w; induction p as [a | e | lvl args k IH | q k IH]; intros w; simpl;
    try reflexivity; [apply IH |].
  destruct (step S (Ai q) w) as [a w']. apply IH.
Qed.

Lemma final_liftAi A (p : Prog GeminiService.Request GeminiService.Answer A) w :
  final S (liftAi p) w = final (aiOf S) p w.
Proof.
  revert w; induction p as [a | e | lvl args k IH | q k IH]; intros w; simpl;
    try reflexivity; [apply IH |].
  destruct (step S (Ai q) w) as [a w']. apply IH.
Qed.

Lemma uiEvents_liftAi A (p : Prog GeminiService.Request GeminiService.Answer A) w :
  uiEvents (trace S (liftAi p) w) = [].
Proof.
  revert w; induction p as [a | e | lvl args k IH | q k IH]; intros w; simpl;
    try reflexivity; [apply IH |].
  destruct (step S (Ai q) w) as [a w']. simpl. apply IH.
Qed.

Lemma aiRequests_liftAi A (p : Prog GeminiService.Request GeminiService.Answer A) w :
  aiRequests (trace S (liftAi p) w) = requests (trace (aiOf S) p w).
Proof.
  revert w; induction p as [a | e | lvl args k IH | q k IH]; intros w; simpl;
    try reflexivity; [apply IH |].
  destruct (step S (Ai q) w) as [a w']. simpl. f_equal. apply IH.
Qed.

Lemma dbRequests_liftAi A (p : Prog GeminiService.Request GeminiService.Answer A) w :
  dbRequests (trace S (liftAi p) w) = [].
Proof.
  revert w; induction p as [a | e | lvl args k IH | q k IH]; intros w; simpl;
    try reflexivity; [apply IH |].
  destruct (step S (Ai q) w) as [a w']. simpl. apply IH.
Qed.

Lemma uiEvents_app (t1 t2 : list (Event Request)) :
  uiEvents (t1 ++ t2) = uiEvents t1 ++ uiEvents t2.
Proof.
  induction t1 as [| [[q | q | e] | lvl args] t1 IH]; simpl;
    try exact IH; [reflexivity | f_equal; exact IH].
Qed.

Lemma dbRequests_app (t1 t2 : list (Event Request)) :
  dbRequests (t1 ++ t2) = dbRequests t1 ++ dbRequests t2.
Proof.
  induction t1 as [| [[q | q | e] | lvl args] t1 IH]; simpl;
    try exact IH; [reflexivity | f_equal; exact IH].
Qed.

Lemma aiRequests_app (t1 t2 : list (Event Request)) :
  aiRequests (t1 ++ t2) = aiRequests t1 ++ aiRequests t2.
Proof.
  induction t1 as [| [[q | q | e] | lvl args] t1 IH]; simpl;
    try exact IH; [reflexivity | f_equal; exact IH].
Qed.

(** A component awaits an operation of the content access layer and
    goes on with its value. *)
Lemma result_await_db A C (p : CAL A) (k : A -> Handler C) w :
  result S (bind (liftDb p) k) w =
  match result (dbOf S) p w with
  | Returned a => result S (k a) (final (dbOf S) p w)
  | Thrown e => Thrown e
  end.
Proof. rewrite result_bind, result_liftDb, final_liftDb. reflexivity. Qed.

Lemma uiEvents_await_db A C (p : CAL A) (k : A -> Handler C) w :
  uiEvents (trace S (bind (liftDb p) k) w) =
  match result (dbOf S) p w with
  | Returned a => uiEvents (trace S (k a) (final (dbOf S) p w))
  | Thrown _ => []
  end.
Proof.
  rewrite trace_bind, uiEvents_app, uiEvents_liftDb, result_liftDb, final_liftDb.
  simpl. destruct (result (dbOf S) p w); reflexivity.
Qed.

Lemma dbRequests_await_db A C (p : CAL A) (k : A -> Handler C) w :
  dbRequests (trace S (bind (liftDb p) k) w) =
  requests (trace (dbOf S) p w) ++
  match result (dbOf S) p w with
  | Returned a => dbRequests (trace S (k a) (final (dbOf S) p w))
  | Thrown _ => []
  end.
Proof.
  rewrite trace_bind, dbRequests_app, dbRequests_liftDb, result_liftDb, final_liftDb.
  f_equal. destruct (result (dbOf S) p w); reflexivity.
Qed.

End BrowserFacts.

Section TryFacts.

Context {Req : Type} {Ans : Req -> Type}.
Implicit Types S : Service Req Ans.

(** A handler is not run when nothing is thrown. *)
Lemma try_catch_returned S A (p : Prog Req Ans A) handler w a :
  result S p w = Returned a ->
  result S (try_catch p handler) w = Returned a /\
  trace S (try_catch p handler) w = trace S p w /\
  final S (try_catch p handler) w = final S p w.
Proof.
  revert w; induction p as [x | e | lvl args k IH | q k IH]; intros w H; simpl in *.
  - auto.
  - discriminate H.
  - destruct (IH w H) as [H1 [H2 H3]]. rewrite H2. auto.
  - destruct (step S q w) as [x w']. destruct (IH x w' H) as [H1 [H2 H3]].
    rewrite H2. auto.
Qed.

(** The finalizer runs after a block that returned. *)
Lemma try_finally_returned S A (p : Prog Req Ans A) finalizer w a :
  result S p w = Returned a ->
  result S (try_finally p finalizer) w =
  match result S finalizer (final S p w) with
  | Returned _ => Returned a
  | Thrown e => Thrown e
  end /\
  trace S (try_finally p finalizer) w =
  trace S p w ++ trace S finalizer (final S p w).
Proof.
  revert w; induction p as [x | e | lvl args k IH | q k IH]; intros w H; simpl in *.
  - injection H as <-. rewrite result_bind, trace_bind.
    destruct (result S finalizer w); simpl; rewrite ?app_nil_r; auto.
  - discriminate H.
  - destruct (IH w H) as [H1 H2]. rewrite H2. auto.
  - destruct (step S q w) as [x w']. destruct (IH x w' H) as [H1 H2].
    rewrite H2. auto.
Qed.

End TryFacts.

Section Handlers.
Import Supabase SupabaseService Hydration App Samples BrowserSamples.


Lemma falsy_trim s : Js.falsy (Js.trim s) = Text.blank s.
Proof.
  destruct (Text.blank s) eqn:E.
  - apply trim_empty in E. rewrite E. reflexivity.
  - destruct (Js.falsy (Js.trim s)) eqn:F; [| reflexivity].
    apply falsy_empty, trim_empty in F. congruence.
Qed.

Lemma blank_falsy s : Text.blank s = false -> Js.falsy s = false.
Proof. destruct s; [discriminate | reflexivity]. Qed.

(** X13: the search form never sends a query without words.  A search
    term that is empty or all white space resets the results and asks
    nothing of the backend.  Any other term is searched for: the handler
    runs [searchPosts] on the term once the spinner is on, the backend
    sees exactly the requests of that search, starting with the two text
    searches, which carry a formatted query that is not empty, what the
    search returned is what is stored as the search results, and the
    spinner that was turned on is turned off again. *)
Theorem handleSearch_runs (S : Browser) (w : state S) searchTerm :
  result S (handleSearch searchTerm) w = Returned tt /\
  if Text.blank searchTerm then
    uiEvents (trace S (handleSearch searchTerm) w) =
    [PreventDefault; HomeSetSearchResults None] /\
    dbRequests (trace S (handleSearch searchTerm) w) = []
  else
    formatQuery searchTerm <> "" /\
    exists results,
      result (dbOf S) (searchPosts searchTerm)
             (final S (ui PreventDefault ;;; ui (HomeSetLoading true)) w) =
      Returned results /\
      uiEvents (trace S (handleSearch searchTerm) w) =
      [PreventDefault; HomeSetLoading true; HomeSetSearchResults (Some results);
       HomeSetLoading false] /\
      dbRequests (trace S (handleSearch searchTerm) w) =
      requests (trace (dbOf S) (searchPosts searchTerm)
                      (final S (ui PreventDefault ;;; ui (HomeSetLoading true)) w)) /\
      dbRequests (trace S (handleSearch searchTerm) w) =
      PostsTextSearch Title (formatQuery searchTerm)
        :: PostsTextSearch Content (formatQuery searchTerm)
        :: match results with
           | [] => []
           | _ :: _ => [ProfilesIn (authorIdsOf (map Post.row results))]
           end.
Proof.
  unfold handleSearch. rewrite falsy_trim. simpl.
  destruct (step S (Ui PreventDefault) w) as [[] w1].
  destruct (Text.blank searchTerm) eqn:E.
  - simpl. destruct (step S (Ui (HomeSetSearchResults None)) w1) as [[] w2].
    repeat split.
  - simpl. destruct (step S (Ui (HomeSetLoading true)) w1) as [[] w2].
    pose proof (searchPosts_shape (dbOf S) w2 searchTerm) as Hshape.
    rewrite (blank_falsy _ E) in Hshape. destruct Hshape as [results [Hres Hreq]].
    rewrite result_await_db, Hres. simpl.
    destruct (step S (Ui (HomeSetSearchResults (Some results))) _) as [[] w3] eqn:H3.
    destruct (step S (Ui (HomeSetLoading false)) w3) as [[] w4] eqn:H4.
    split; [reflexivity |]. split; [apply formatQuery_nonblank, E |].
    exists results. split; [reflexivity |]. split; [| split].
    + rewrite uiEvents_await_db, Hres. simpl. rewrite H3. simpl. rewrite H4. reflexivity.
    + rewrite dbRequests_await_db, Hres. simpl. rewrite H3. simpl. rewrite H4.
      simpl. rewrite app_nil_r. reflexivity.
    + rewrite dbRequests_await_db, Hres, Hreq. simpl. rewrite H3. simpl. rewrite H4.
      simpl. rewrite app_nil_r. reflexivity.
Qed.

Lemma getPostById_first_request (B : Backend) id w :
  exists found rest,
    result B (getPostById id) w = Returned found /\
    requests (trace B (getPostById id) w) = PostById id :: rest.
Proof.
  destruct (always_result B _ _ _ (getPostById_never_throws id) w) as [found Hres].
  assert (Hreq : exists rest,
            requests (trace B (getPostById id) w) = PostById id :: rest).
  { unfold getPostById. simpl. destruct (step B (PostById id) w) as [r w1].
    simpl. eexists. reflexivity. }
  destruct Hreq as [rest Hreq]. exists found, rest. split; assumption.
Qed.

#[local] Opaque getPosts getPostById getPostsByAuthor createPost
  GeminiService.generateSummary.

(** What [fetchPost] does for an id that is there. *)
Lemma fetchPost_runs (S : Browser) (w : state S) id postId :
  truthy id = Some postId ->
  result S (fetchPost id) w = Returned tt /\
  exists found rest,
    uiEvents (trace S (fetchPost id) w) =
    [PostSetLoading true; PostSetPost found; PostSetLoading false] /\
    dbRequests (trace S (fetchPost id) w) = PostById postId :: rest.
Proof.
  intros Hid. unfold fetchPost. rewrite Hid. simpl.
  destruct (step S (Ui (PostSetLoading true)) w) as [[] w1].
  destruct (getPostById_first_request (dbOf S) postId w1) as [found [rest [Hres Hreq]]].
  rewrite result_await_db, Hres. simpl.
  destruct (step S (Ui (PostSetPost found)) _) as [[] w2] eqn:H2.
  destruct (step S (Ui (PostSetLoading false)) w2) as [[] w3] eqn:H3.
  split; [reflexivity |]. exists found, rest. split.
  - rewrite uiEvents_await_db, Hres. simpl. rewrite H2. simpl. rewrite H3. reflexivity.
  - rewrite dbRequests_await_db, Hres, Hreq. simpl. rewrite H2. simpl. rewrite H3.
    simpl. rewrite app_nil_r. reflexivity.
Qed.

#[local] Opaque fetchPost.

(** X14: the comment form sends nothing it should not.  When the comment
    is empty or all white space, when nobody is signed in, or when the
    page has no post id, the handler stops after [preventDefault]: no
    request is issued and no state is set. *)
Theorem handleCommentSubmit_guard (S : Browser) (w : state S) id user commentText :
  Text.blank commentText = true \/ user = None \/ truthy id = None ->
  result S (handleCommentSubmit id user commentText) w = Returned tt /\
  uiEvents (trace S (handleCommentSubmit id user commentText) w) = [PreventDefault] /\
  dbRequests (trace S (handleCommentSubmit id user commentText) w) = [].
Proof.
  intros Hguard. unfold handleCommentSubmit. rewrite falsy_trim. simpl.
  destruct (step S (Ui PreventDefault) w) as [[] w1].
  destruct (Text.blank commentText) eqn:E; [repeat split |].
  destruct user as [u |]; [| repeat split].
  destruct (truthy id) as [postId |] eqn:Hid; [| repeat split].
  destruct Hguard as [H | [H | H]]; discriminate H.
Qed.

Lemma handleCommentSubmit_guard_witness :
  result online (handleCommentSubmit (Some "p1") (Some ada) "   ") 0 = Returned tt /\
  uiEvents (trace online (handleCommentSubmit (Some "p1") (Some ada) "   ") 0)
  = [PreventDefault] /\
  dbRequests (trace online (handleCommentSubmit (Some "p1") (Some ada) "   ") 0) = [].
Proof.
  apply (handleCommentSubmit_guard online 0 (Some "p1") (Some ada) "   ").
  left. reflexivity.
Defined.

(** X15: what the comment form does with a comment it accepts.  It turns
    the submitting flag on and inserts the comment under the post id of
    the page and the id of the user.  When the insert fails the handler
    throws "Could not add comment." there and then: the flag stays on, the
    text is not cleared and the post is not fetched again.  When the
    insert succeeds the text is cleared, the flag is turned off, and the
    post is fetched again by its id, the spinner of the page going on and
    off around it. *)
Theorem handleCommentSubmit_runs (S : Browser) (w : state S) id postId user commentText :
  Text.blank commentText = false ->
  truthy id = Some postId ->
  let row := mkNewComment postId (Profile.id user) commentText in
  let w2 := final S (ui PreventDefault ;;; ui (PostSetIsSubmitting true)) w in
  match fst (step S (Db (InsertComment row)) w2) with
  | Failure _ =>
      result S (handleCommentSubmit id (Some user) commentText) w
      = Thrown (Js.Error "Could not add comment.") /\
      uiEvents (trace S (handleCommentSubmit id (Some user) commentText) w)
      = [PreventDefault; PostSetIsSubmitting true] /\
      dbRequests (trace S (handleCommentSubmit id (Some user) commentText) w)
      = [InsertComment row]
  | Success _ =>
      result S (handleCommentSubmit id (Some user) commentText) w = Returned tt /\
      exists found rest,
        uiEvents (trace S (handleCommentSubmit id (Some user) commentText) w)
        = [PreventDefault; PostSetIsSubmitting true; PostSetCommentText "";
           PostSetIsSubmitting false; PostSetLoading true; PostSetPost found;
           PostSetLoading false] /\
        dbRequests (trace S (handleCommentSubmit id (Some user) commentText) w)
        = InsertComment row :: PostById postId :: rest
  end.
Proof.
  intros E Hid row w2. subst w2. unfold handleCommentSubmit.
  rewrite falsy_trim, E, Hid. simpl.
  destruct (step S (Ui PreventDefault) w) as [[] w1].
  destruct (step S (Ui (PostSetIsSubmitting true)) w1) as [[] w2].
  fold row.
  destruct (step S (Db (InsertComment row)) w2) as [[inserted | e] w3]; simpl.
  - destruct (step S (Ui (PostSetCommentText "")) w3) as [[] w4].
    destruct (step S (Ui (PostSetIsSubmitting false)) w4) as [[] w5].
    destruct (fetchPost_runs S w5 id postId Hid) as [Hres [found [rest [Hui Hdb]]]].
    split; [exact Hres |]. exists found, rest. simpl.
    rewrite Hui, Hdb. split; reflexivity.
  - repeat split.
Qed.

Lemma handleCommentSubmit_runs_witness :
  result cutOff (handleCommentSubmit (Some "p1") (Some ada) "Nice") 0
  = Thrown (Js.Error "Could not add comment.") /\
  uiEvents (trace cutOff (handleCommentSubmit (Some "p1") (Some ada) "Nice") 0)
  = [PreventDefault; PostSetIsSubmitting true] /\
  dbRequests (trace cutOff (handleCommentSubmit (Some "p1") (Some ada) "Nice") 0)
  = [InsertComment (mkNewComment "p1" "u1" "Nice")].
Proof.
  exact (handleCommentSubmit_runs cutOff 0 (Some "p1") "p1" ada "Nice" eq_refl eq_refl).
Defined.

(** X16: the publish button asks for a title and content.  When the
    title or the content is empty or all white space, or nobody is signed
    in, the handler shows the alert and does nothing else: nothing is
    inserted. *)
Theorem handlePublish_guard (S : Browser) (w : state S) user title content summary :
  Text.blank title = true \/ Text.blank content = true \/ user = None ->
  result S (handlePublish user title content summary) w = Returned tt /\
  uiEvents (trace S (handlePublish user title content summary) w)
  = [Alert "Title and content are required."] /\
  dbRequests (trace S (handlePublish user title content summary) w) = [].
Proof.
  intros Hguard. unfold handlePublish. rewrite !falsy_trim.
  destruct (Text.blank title) eqn:E1; simpl;
    [destruct (step S (Ui (Alert _)) w) as [[] w1]; repeat split |].
  destruct (Text.blank content) eqn:E2; simpl;
    [destruct (step S (Ui (Alert _)) w) as [[] w1]; repeat split |].
  destruct user as [u |]; simpl;
    [| destruct (step S (Ui (Alert _)) w) as [[] w1]; repeat split].
  destruct Hguard as [H | [H | H]]; discriminate H.
Qed.

Lemma handlePublish_guard_witness :
  result online (handlePublish (Some ada) "Title" "  " "") 0 = Returned tt /\
  uiEvents (trace online (handlePublish (Some ada) "Title" "  " "") 0)
  = [Alert "Title and content are required."] /\
  dbRequests (trace online (handlePublish (Some ada) "Title" "  " "") 0) = [].
Proof.
  apply (handlePublish_guard online 0 (Some ada) "Title" "  " "").
  right. left. reflexivity.
Defined.

(** X17: what the publish button does with a post it accepts.  It turns
    the publishing flag on and inserts the post with the id of the user
    as its author.  When the insert fails the handler throws "Could not
    create post." there and then: the flag stays on and the page does not
    move.  When the insert succeeds the flag is turned off and the page
    moves to "/post/" followed by the id the backend gave the row,
    whether or not the profile of the author could be fetched. *)
Theorem handlePublish_runs (S : Browser) (w : state S) user title content summary :
  Text.blank title = false ->
  Text.blank content = false ->
  let postData := mkNewPost title content summary (Profile.id user) in
  let w1 := final S (ui (EditorSetIsPublishing true)) w in
  match fst (step S (Db (InsertPost postData)) w1) with
  | Failure _ =>
      result S (handlePublish (Some user) title content summary) w
      = Thrown (Js.Error "Could not create post.") /\
      uiEvents (trace S (handlePublish (Some user) title content summary) w)
      = [EditorSetIsPublishing true]
  | Success row =>
      result S (handlePublish (Some user) title content summary) w = Returned tt /\
      uiEvents (trace S (handlePublish (Some user) title content summary) w)
      = [EditorSetIsPublishing true; EditorSetIsPublishing false;
         Navigate ("/post/" ++ PostRow.id row)%string]
  end.
Proof.
  intros E1 E2 postData w1. subst w1. unfold handlePublish.
  rewrite !falsy_trim, E1, E2. simpl.
  destruct (step S (Ui (EditorSetIsPublishing true)) w) as [[] w1].
  fold postData. simpl.
  destruct (step S (Db (InsertPost postData)) w1) as [[row | e] w2] eqn:H1; simpl.
  - destruct (step S (Db (FullProfileById (PostRow.author_id row))) w2)
      as [pr w3] eqn:H2.
    pose proof (createPost_inserted (dbOf S) postData w1 row w2 pr w3 H1 H2) as Hres.
    rewrite result_await_db, uiEvents_await_db, Hres. simpl.
    destruct (step S (Ui (EditorSetIsPublishing false)) _) as [[] w4].
    destruct (step S (Ui (Navigate _)) w4) as [[] w5].
    split; reflexivity.
  - destruct (createPost_insert_failed (dbOf S) postData w1 e w2 H1) as [Hres _].
    rewrite result_await_db, uiEvents_await_db, Hres. split; reflexivity.
Qed.

Lemma handlePublish_runs_witness :
  result online (handlePublish (Some ada) "Hello" "First post" "hi") 0 = Returned tt /\
  uiEvents (trace online (handlePublish (Some ada) "Hello" "First post" "hi") 0)
  = [EditorSetIsPublishing true; EditorSetIsPublishing false; Navigate "/post/p1"].
Proof.
  exact (handlePublish_runs online 0 ada "Hello" "First post" "hi" eq_refl eq_refl).
Defined.

(** X18: the summarize button.  With no content it does nothing.
    Otherwise it turns the summarizing flag on, stores the string
    [generateSummary] returns as the summary, a string that is never
    empty, and turns the flag off again; since [generateSummary] does not
    throw, the handler always returns and its own fallback "Failed to
    generate summary." is not what sets the summary. *)
Theorem handleSummarize_runs (S : Browser) (w : state S) content :
  result S (handleSummarize content) w = Returned tt /\
  if Js.falsy content then trace S (handleSummarize content) w = []
  else
    exists s,
      result (aiOf S) (GeminiService.generateSummary content)
             (final S (ui (EditorSetIsSummarizing true)) w) = Returned s /\
      s <> "" /\
      uiEvents (trace S (handleSummarize content) w) =
      [EditorSetIsSummarizing true; EditorSetSummary s; EditorSetIsSummarizing false] /\
      dbRequests (trace S (handleSummarize content) w) = [].
Proof.
  unfold handleSummarize. destruct (Js.falsy content); [split; reflexivity |].
  remember (generated <- liftAi (GeminiService.generateSummary content) ;;
            ui (EditorSetSummary generated)) as inner eqn:Einner.
  remember (fun error : Js.Exn =>
              console_error [Js.show error] ;;;
              ui (EditorSetSummary "Failed to generate summary.")) as handler.
  remember (ui (EditorSetIsSummarizing false)) as finalizer eqn:Efin.
  simpl. destruct (step S (Ui (EditorSetIsSummarizing true)) w) as [[] w1].
  destruct (always_result (aiOf S) _ _ _
              (generateSummary_some_text content) w1) as [s [Hs Hne]].
  assert (Hinner : result S inner w1 = Returned tt).
  { subst inner. rewrite result_bind, result_liftAi, Hs. simpl.
    destruct (step S (Ui (EditorSetSummary s)) _) as [[] w2]. reflexivity. }
  assert (Hui : uiEvents (trace S inner w1) = [EditorSetSummary s]).
  { subst inner.
    rewrite trace_bind, uiEvents_app, uiEvents_liftAi, result_liftAi, Hs. simpl.
    destruct (step S (Ui (EditorSetSummary s)) _) as [[] w2]. reflexivity. }
  assert (Hdb : dbRequests (trace S inner w1) = []).
  { subst inner. rewrite trace_bind, dbRequests_app, result_liftAi, Hs. simpl.
    destruct (step S (Ui (EditorSetSummary s)) _) as [[] w2]. simpl.
    rewrite app_nil_r. apply dbRequests_liftAi. }
  destruct (try_catch_returned S _ inner handler w1 tt Hinner) as [Hc1 [Hc2 Hc3]].
  destruct (try_finally_returned S _ _ finalizer w1 tt Hc1) as [Hf1 Hf2].
  rewrite Hf1. split.
  - subst finalizer. simpl.
    destruct (step S (Ui (EditorSetIsSummarizing false)) _) as [[] w3]. reflexivity.
  - exists s. split; [exact Hs |]. split; [exact Hne |].
    cbn [uiEvents dbRequests].
    rewrite Hf2, Hc2, uiEvents_app, dbRequests_app, Hui, Hdb. subst finalizer.
    simpl. destruct (step S (Ui (EditorSetIsSummarizing false)) _) as [[] w3].
    split; reflexivity.
Qed.

(** X19: [setAuthData] always leaves a user behind a session that has
    one.  Without a session user the user is set to [null] and nothing is
    asked.  With one, the profile is asked for once, by the id of the
    session user: when it is found it becomes the user; when it is not,
    the user is the fallback with the id of the session user and a name
    that is never empty, the email when there is one and "New User"
    otherwise. *)
Theorem setAuthData_runs (S : Browser) (w : state S) session :
  result S (setAuthData session) w = Returned tt /\
  match match session with
        | Some s => session_user s
        | None => None
        end with
  | None =>
      uiEvents (trace S (setAuthData session) w) =
      [AuthSetSession session; AuthSetUser None] /\
      dbRequests (trace S (setAuthData session) w) = []
  | Some sessionUser =>
      dbRequests (trace S (setAuthData session) w) =
      [FullProfileById (session_user_id sessionUser)] /\
      exists profile,
        uiEvents (trace S (setAuthData session) w) =
        [AuthSetSession session; AuthSetUser (Some profile)] /\
        match fst (step S (Db (FullProfileById (session_user_id sessionUser)))
                        (final S (ui (AuthSetSession session)) w)) with
        | Success found => profile = found
        | Failure _ =>
            Profile.id profile = session_user_id sessionUser /\
            Profile.name profile <> "" /\
            (forall email, session_user_email sessionUser = Some email ->
                           email <> "" -> Profile.name profile = email) /\
            (session_user_email sessionUser = None -> Profile.name profile = "New User")
        end
  end.
Proof.
  unfold setAuthData. simpl.
  destruct (step S (Ui (AuthSetSession session)) w) as [[] w1].
  destruct (match session with
            | Some s => session_user s
            | None => None
            end) as [sessionUser |]; simpl.
  - destruct (step S (Db (FullProfileById (session_user_id sessionUser))) w1)
      as [[found | e] w2]; simpl.
    + destruct (step S (Ui (AuthSetUser (Some found))) w2) as [[] w3].
      split; [reflexivity |]. split; [reflexivity |].
      exists found. split; reflexivity.
    + destruct (step S (Ui (AuthSetUser _)) w2) as [[] w3].
      split; [reflexivity |]. split; [reflexivity |].
      eexists. split; [reflexivity |]. simpl.
      split; [reflexivity |]. unfold fallbackName. split; [| split].
      * destruct (session_user_email sessionUser) as [[| c email] |]; simpl; discriminate.
      * intros email -> Hne. destruct email; [contradiction | reflexivity].
      * intros ->. reflexivity.
  - destruct (step S (Ui (AuthSetUser None)) w1) as [[] w2].
    repeat split.
Qed.

#[local] Transparent fetchPost.

(** X20: a loader that turns its spinner on turns it off again.  The
    three effects that load data (the listing of the home page, the post
    of the post page, the posts of the dashboard) set [loading], run
    their read of the content access layer ([getPosts], [getPostById] on
    the id, [getPostsByAuthor] on the id of the user), store exactly what
    that read returned and clear [loading]; the backend sees the requests
    of that read and no others; they always return, because no read of
    the content access layer throws.  A post page without an id loads
    nothing, and a dashboard without a user only navigates home. *)
Theorem loaders_always_finish (S : Browser) (w : state S) :
  (result S fetchPosts w = Returned tt /\
   exists posts,
     result (dbOf S) getPosts (final S (ui (HomeSetLoading true)) w) =
     Returned posts /\
     uiEvents (trace S fetchPosts w) =
     [HomeSetLoading true; HomeSetPosts posts; HomeSetLoading false] /\
     dbRequests (trace S fetchPosts w) =
     requests (trace (dbOf S) getPosts (final S (ui (HomeSetLoading true)) w))) /\
  (forall id,
     result S (fetchPost id) w = Returned tt /\
     match truthy id with
     | Some postId =>
         exists found,
           result (dbOf S) (getPostById postId)
                  (final S (ui (PostSetLoading true)) w) =
           Returned found /\
           uiEvents (trace S (fetchPost id) w) =
           [PostSetLoading true; PostSetPost found; PostSetLoading false] /\
           dbRequests (trace S (fetchPost id) w) =
           requests (trace (dbOf S) (getPostById postId)
                           (final S (ui (PostSetLoading true)) w))
     | None => trace S (fetchPost id) w = []
     end) /\
  (forall user,
     result S (dashboardEffect user) w = Returned tt /\
     match user with
     | Some author =>
         exists posts,
           result (dbOf S) (getPostsByAuthor (Profile.id author))
                  (final S (ui (DashboardSetLoading true)) w) =
           Returned posts /\
           uiEvents (trace S (dashboardEffect user) w) =
           [DashboardSetLoading true; DashboardSetPosts posts; DashboardSetLoading false] /\
           dbRequests (trace S (dashboardEffect user) w) =
           requests (trace (dbOf S) (getPostsByAuthor (Profile.id author))
                           (final S (ui (DashboardSetLoading true)) w))
     | None =>
         uiEvents (trace S (dashboardEffect user) w) = [Navigate "/"] /\
         dbRequests (trace S (dashboardEffect user) w) = []
     end).
Proof.
  split; [| split].
  - unfold fetchPosts. simpl.
    destruct (step S (Ui (HomeSetLoading true)) w) as [[] w1].
    destruct (returns_Returned _ _ _ (always_result (dbOf S) _ _ _ getPosts_hydrated w1))
      as [posts [Hres _]].
    rewrite result_await_db, Hres. simpl.
    destruct (step S (Ui (HomeSetPosts posts)) _) as [[] w2] eqn:H2.
    destruct (step S (Ui (HomeSetLoading false)) w2) as [[] w3] eqn:H3.
    split; [reflexivity |]. exists posts. split; [reflexivity |]. split.
    + rewrite uiEvents_await_db, Hres. simpl. rewrite H2. simpl. rewrite H3.
      reflexivity.
    + rewrite dbRequests_await_db, Hres. simpl. rewrite H2. simpl. rewrite H3.
      simpl. apply app_nil_r.
  - intros id. unfold fetchPost. destruct (truthy id) as [postId |] eqn:Hid.
    + simpl. destruct (step S (Ui (PostSetLoading true)) w) as [[] w1].
      destruct (always_result (dbOf S) _ _ _ (getPostById_never_throws postId) w1)
        as [found Hres].
      rewrite result_await_db, Hres. simpl.
      destruct (step S (Ui (PostSetPost found)) _) as [[] w2] eqn:H2.
      destruct (step S (Ui (PostSetLoading false)) w2) as [[] w3] eqn:H3.
      split; [reflexivity |]. exists found. split; [reflexivity |]. split.
      * rewrite uiEvents_await_db, Hres. simpl. rewrite H2. simpl. rewrite H3.
        reflexivity.
      * rewrite dbRequests_await_db, Hres. simpl. rewrite H2. simpl. rewrite H3.
        simpl. apply app_nil_r.
    + split; reflexivity.
  - intros [user |]; unfold dashboardEffect; simpl.
    + destruct (step S (Ui (DashboardSetLoading true)) w) as [[] w1].
      destruct (returns_Returned _ _ _
                  (always_result (dbOf S) _ _ _
                     (getPostsByAuthor_hydrated (Profile.id user)) w1))
        as [posts [Hres _]].
      rewrite result_await_db, Hres. simpl.
      destruct (step S (Ui (DashboardSetPosts posts)) _) as [[] w2] eqn:H2.
      destruct (step S (Ui (DashboardSetLoading false)) w2) as [[] w3] eqn:H3.
      split; [reflexivity |]. exists posts. split; [reflexivity |]. split.
      * rewrite uiEvents_await_db, Hres. simpl. rewrite H2. simpl. rewrite H3.
        reflexivity.
      * rewrite dbRequests_await_db, Hres. simpl. rewrite H2. simpl. rewrite H3.
        simpl. apply app_nil_r.
    + destruct (step S (Ui (Navigate "/")) w) as [[] w1]. repeat split.
Qed.

End Handlers.

(** ** More concrete runs *)

Section MoreExamples.
Import Supabase SupabaseService Observe App Samples BrowserSamples.

Example formatQuery_run :
  formatQuery "  verified   software in Rocq " = "verified | software | in | Rocq".
Proof. reflexivity. Qed.

Example getPosts_offline_logs :
  failureCauses (canned offline) getPosts 0 = ["TypeError: Failed to fetch"] /\
  consoleLines (trace (canned offline) getPosts 0) =
  [(LogError, ["Error fetching posts:"; "TypeError: Failed to fetch"])].
Proof. split; reflexivity. Qed.

Example getPostById_without_profiles_logs :
  consoleLines (trace (canned noProfiles) (getPostById "p1") 0) =
  [(LogWarn, ["Could not fetch author for post:"; "TypeError: Failed to fetch"]);
   (LogWarn, ["Could not fetch users for comments:"; "TypeError: Failed to fetch"])].
Proof. reflexivity. Qed.

Example handleSearch_online_run :
  uiEvents (trace online (handleSearch " hello  world ") 0) =
  [PreventDefault; HomeSetLoading true;
   HomeSetSearchResults
     (Some [Post.mk post1' (Some ada) None; Post.mk post2 (Some bob) None;
            Post.mk post3 (Some (Profile.mk "u9" "Unknown Author" None None)) None]);
   HomeSetLoading false] /\
  dbRequests (trace online (handleSearch " hello  world ") 0) =
  [PostsTextSearch Title "hello | world"; PostsTextSearch Content "hello | world";
   ProfilesIn ["u1"; "u2"; "u9"]].
Proof. split; reflexivity. Qed.

Example handleCommentSubmit_online_run :
  uiEvents (trace online (handleCommentSubmit (Some "p1") (Some bob) "Nice") 0) =
  [PreventDefault; PostSetIsSubmitting true; PostSetCommentText "";
   PostSetIsSubmitting false; PostSetLoading true;
   PostSetPost
     (Some (Post.mk post1 (Some ada)
              (Some [Comment.mk comment1 (Some bob);
                     Comment.mk comment2 (Some (Profile.mk "u9" "Unknown" None None))])));
   PostSetLoading false].
Proof. reflexivity. Qed.

Example handlePublish_cut_off_run :
  result cutOff (handlePublish (Some ada) "Hello" "First post" "hi") 0
  = Thrown (Js.Error "Could not create post.") /\
  uiEvents (trace cutOff (handlePublish (Some ada) "Hello" "First post" "hi") 0)
  = [EditorSetIsPublishing true].
Proof. split; reflexivity. Qed.

Example handleSummarize_cut_off_run :
  uiEvents (trace cutOff (handleSummarize longContent) 0) =
  [EditorSetIsSummarizing true;
   EditorSetSummary "There was an error generating the AI summary. Please try again later.";
   EditorSetIsSummarizing false].
Proof. reflexivity. Qed.

Example setAuthData_fallback_run :
  uiEvents (trace cutOff
              (setAuthData (Some (mkSession (Some (mkSessionUser "u7" (Some "eve@example.org")))))) 0) =
  [AuthSetSession (Some (mkSession (Some (mkSessionUser "u7" (Some "eve@example.org")))));
   AuthSetUser (Some (Profile.mk "u7" "eve@example.org" None None))].
Proof. reflexivity. Qed.

End MoreExamples.
